(** * go-ios: the Xcode 12 XCUITest runner and the device-condition REST handlers

    A shallow embedding of
    - [ios/testmanagerd/xcuitestrunner_12.go]
      ([RunXUITestWithBundleIdsXcode12Ctx], [startTestRunner12]) and
    - the device handlers of the REST api package
      ([EnableDeviceCondition], [DisableDeviceCondition], and, in module
      [routes], [SetLocation], [ResetLocation], [GetProfiles],
      [GetSupportedConditions] and [PairDevice]).

    Everything the two files reach outside themselves (the dtx connections,
    the testmanagerd proxy, instruments' process control and device state
    control, the gin request context) is a record of answers the remote side
    gives; the Go code itself is written out as functions in a small monad
    that records the calls it makes, in order. *)

From Stdlib Require Import ZArith Lia Ascii String.
From stdpp Require Import gmap strings list fin_maps.
From Stdlib Require Import Sorted.

Local Open Scope string_scope.
Local Open Scope list_scope.
Local Open Scope Z_scope.

(** ** Go's [strings] package, as far as the runner uses it *)

Module strings.

(** [strings.HasPrefix]. *)
Fixpoint HasPrefix (s prefix : string) : bool :=
  match prefix, s with
  | EmptyString, _ => true
  | String _ _, EmptyString => false
  | String p prefix', String c s' =>
      if Ascii.eqb c p then HasPrefix s' prefix' else false
  end.

(** The loop of [genSplit] for a non-empty separator: [cur] holds the
    bytes of the piece being read (latest first) and [skip] the bytes of a
    separator match still to be passed over. Matches are taken left to
    right and do not overlap. *)
Fixpoint genSplit (sep : string) (skip : nat) (cur : list ascii) (s : string)
  : list string :=
  match s with
  | EmptyString => [string_of_list_ascii (rev cur)]
  | String c s' =>
      match skip with
      | S k => genSplit sep k cur s'
      | O =>
          if HasPrefix s sep
          then string_of_list_ascii (rev cur)
                 :: genSplit sep (String.length sep - 1) [] s'
          else genSplit sep 0 (c :: cur) s'
      end
  end.

(** [strings.Split s sep]; with an empty separator Go cuts the string
    after every character. *)
Definition Split (s sep : string) : list string :=
  match sep with
  | EmptyString => (fun c => String c EmptyString) <$> list_ascii_of_string s
  | String _ _ => genSplit sep 0 [] s
  end.

(** [strings.Contains], for a non-empty [substr]. *)
Fixpoint Contains (s substr : string) : bool :=
  HasPrefix s substr
  || match s with
     | EmptyString => false
     | String _ s' => Contains s' substr
     end.

End strings.

(** ** Errors, values and the calls a run makes *)

(** Go [error] values: a fresh error, or one wrapped by
    [fmt.Errorf("...: %w", err)]. *)
Inductive error :=
| errors_New (msg : string)
| fmt_Errorf (prefix : string) (cause : error).

Fixpoint Error (e : error) : string :=
  match e with
  | errors_New msg => msg
  | fmt_Errorf prefix cause => prefix +:+ Error cause
  end.

(** The [interface{}] payloads the runner puts in its maps and slices. *)
Inductive value :=
| VString (s : string)
| VUint64 (n : Z).

#[global] Instance value_eq_dec : EqDecision value.
Proof. solve_decision. Defined.

Record XCTCapabilities := { CapabilitiesDictionary : gmap string value }.

Record UUID := { UUID_String : string }.

(** A dtx connection, named by the order in which it was dialled. *)
Record Conn := { conn_no : nat }.

Inductive resource :=
| ResConn (c : Conn)
| ResProcessControl.

(** The logrus levels the two files log at. *)
Inductive Level := DebugLevel | InfoLevel | ErrorLevel.

Inductive logarg :=
| LString (s : string)
| LUint64 (n : Z)
| LBool (b : bool)
| LError (e : error)
| LCaps (c : XCTCapabilities).

Inductive chan_name := ctx_Done | closeChannel | closedChannel.

(** What a run does to the outside world, in order. *)
Inductive event :=
| EvLog (lvl : Level) (format : string) (args : list logarg)
| EvInitiateControlSession (c : Conn) (caps : XCTCapabilities)
| EvInitiateSession (c : Conn) (sessionId : UUID) (caps : XCTCapabilities)
| EvStartProcess (bundleID : string) (env : gmap string value)
    (args : list value) (opts : gmap string value)
| EvForChannelRequest (c : Conn) (dispatcherId : string)
| EvSleep (nanoseconds : Z)
| EvAuthorize (c : Conn) (pid : Z)
| EvStartExecutingTestPlan (c : Conn) (channel : nat) (version : Z)
| EvRecv (ch : chan_name) (tick : nat)
| EvSend (ch : chan_name) (tick : nat)
| EvKillProcess (pid : Z)
| EvClose (r : resource).

(** ** The monad of a Go function body

    A computation has made some calls and then either has a value, or has
    panicked, or is parked on a channel operation that never completes. *)

Inductive panic :=
| IndexOutOfRange (index length : nat).

Inductive outcome (A : Type) :=
| Val (a : A)
| Panics (p : panic)
| Blocks.
Arguments Val {A} a.
Arguments Panics {A} p.
Arguments Blocks {A}.

Definition M (A : Type) : Type := list event * outcome A.

Definition ret {A} (a : A) : M A := ([], Val a).

Definition bind {A B} (m : M A) (f : A -> M B) : M B :=
  match m with
  | (tr, Val a) => let '(tr', o) := f a in (tr ++ tr', o)
  | (tr, Panics p) => (tr, Panics p)
  | (tr, Blocks) => (tr, Blocks)
  end.

Definition emit (e : event) : M unit := ([e], Val tt).

(** [defer]: the deferred calls run when the body returns or panics, and
    never when the goroutine stays parked. *)
Definition defer {A} (deferred : list event) (body : M A) : M A :=
  match body with
  | (tr, Blocks) => (tr, Blocks)
  | (tr, o) => (tr ++ deferred, o)
  end.

Declare Scope go_scope.
Delimit Scope go_scope with go.
Notation "x <- m ;; k" := (bind m (fun x => k))
  (at level 100, m at next level, right associativity) : go_scope.
Notation "m ;;; k" := (bind m (fun _ => k))
  (at level 100, right associativity) : go_scope.
Local Open Scope go_scope.

Definition trace {A} (m : M A) : list event := fst m.
Definition result {A} (m : M A) : outcome A := snd m.

(** [l[i]] on a slice: a runtime panic when [i] is out of range. *)
Definition index {A} (l : list A) (i : nat) : M A :=
  match l !! i with
  | Some x => ret x
  | None => ([], Panics (IndexOutOfRange i (length l)))
  end.

Definition logf (lvl : Level) (format : string) (args : list logarg) : M unit :=
  emit (EvLog lvl format args).

(** ** instruments.ProcessControl *)

Record ProcessControl := {
  StartProcess : string -> gmap string value -> list value -> gmap string value
                 -> Z * option error;
  KillProcess : Z -> option error
}.

Definition call_StartProcess (pControl : ProcessControl) (bundleID : string)
    (env : gmap string value) (args : list value) (opts : gmap string value)
  : M (Z * option error) :=
  emit (EvStartProcess bundleID env args opts) ;;;
  ret (StartProcess pControl bundleID env args opts).

Definition call_KillProcess (pControl : ProcessControl) (pid : Z)
  : M (option error) :=
  emit (EvKillProcess pid) ;;; ret (KillProcess pControl pid).

(** ** startTestRunner12 *)

(** The [env] literal of [startTestRunner12]. *)
Definition baseline_env (testBundlePath xctestConfigPath sessionIdentifier : string)
  : gmap string value :=
  <["XCTestSessionIdentifier" := VString sessionIdentifier]>
  (<["XCTestConfigurationFilePath" := VString xctestConfigPath]>
  (<["XCTestBundlePath" := VString testBundlePath]>
  (<["SQLITE_ENABLE_THREAD_ASSERTIONS" := VString "1"]>
  (<["OS_ACTIVITY_DT_MODE" := VString "YES"]>
  (<["NSUnbufferedIO" := VString "YES"]>
  (<["MTC_CRASH_ON_REPORT" := VString "1"]>
  (<["DYLD_INSERT_LIBRARIES" := VString "/Developer/usr/lib/libMainThreadChecker.dylib"]>
  (<["CA_DEBUG_TRANSACTIONS" := VString "0"]>
  (<["CA_ASSERT_MAIN_THREAD_TRANSACTIONS" := VString "0"]> ∅))))))))).

(** The [for _, entrystring := range wdaenv] loop. *)
Fixpoint add_wdaenv (wdaenv : list string) (env : gmap string value)
  : M (gmap string value) :=
  match wdaenv with
  | [] => ret env
  | entrystring :: rest =>
      let entry := strings.Split entrystring "=" in
      key <- index entry 0 ;;
      value <- index entry 1 ;;
      let env := <[key := VString value]> env in
      logf DebugLevel "adding extra env %s=%s" [LString key; LString value] ;;;
      add_wdaenv rest env
  end.

(** The [args] slice: the fixed flags, then the caller's arguments. *)
Definition runner_args (wdaargs : list string) : list value :=
  fold_left (fun args arg => args ++ [VString arg]) wdaargs
    [VString "-NSTreatUnknownArgumentsAsOpen"; VString "NO";
     VString "-ApplePersistenceIgnoreState"; VString "YES"].

(** The [opts] literal. *)
Definition runner_opts : gmap string value :=
  <["ActivateSuspended" := VUint64 1]> (<["StartSuspendedKey" := VUint64 0]> ∅).

Definition startTestRunner12 (pControl : ProcessControl)
    (xctestConfigPath bundleID sessionIdentifier testBundlePath : string)
    (wdaargs wdaenv : list string) : M (Z * option error) :=
  let args := runner_args wdaargs in
  let env := baseline_env testBundlePath xctestConfigPath sessionIdentifier in
  env <- add_wdaenv wdaenv env ;;
  let opts := runner_opts in
  call_StartProcess pControl bundleID env args opts.

(** ** The collaborators of a test run *)

Record DeviceEntry := { SerialNumber : string }.

Record XCTestConfiguration := { TestBundleURL : string }.

Record testInfo := { testrunnerAppPath : string }.

Record TestListener := { listener_no : nat }.

(** A channel operation of the run becomes possible at some tick of the
    clock, or never does. *)
Inductive chan :=
| never
| ready_at (tick : nat).

(** [context.Context], of which the run uses [Done()] only. *)
Record Context := { Done : chan }.

(** The nil channel, the zero value of a channel type: a receive from it and
    a send to it block forever. *)
Definition nil_chan : chan := never.

(** [ProxyDispatcher], with the fields the run reads. *)
Record ProxyDispatcher := {
  id : string;
  dispatcher_closeChannel : chan;
  dispatcher_closedChannel : chan
}.

(** The values [setupXcuiTest] returns next to its error. *)
Record setup_values := {
  testSessionId : UUID;
  xctestConfigPath : string;
  testConfig : XCTestConfiguration;
  testInfo_of : testInfo
}.

(** The answers of the device and of the other files of the package.
    [NewUsbmuxdConnection] takes the number of connections dialled before;
    the connection it opens is named by that number. *)
Record World := {
  testmanagerdiOS14 : string;
  NewUsbmuxdConnection : nat -> DeviceEntry -> string -> option error;
  setupXcuiTest : DeviceEntry -> string -> string -> string
                  -> setup_values * option error;
  initiateControlSessionWithCapabilities :
    Conn -> XCTCapabilities -> XCTCapabilities * option error;
  initiateSessionWithIdentifierAndCaps :
    Conn -> UUID -> XCTCapabilities -> XCTCapabilities * option error;
  NewProcessControl : DeviceEntry -> ProcessControl * option error;
  ForChannelRequest : Conn -> string -> nat;
  authorizeTestSessionWithProcessID : Conn -> Z -> bool * option error;
  startExecutingTestPlanWithProtocolVersion : Conn -> nat -> Z -> option error
}.

Record dtxproxy := {
  daemonConnection : Conn;
  dtxConnection : Conn;
  ideInterface_testConfig : XCTestConfiguration;
  proxy_listener : TestListener
}.

Definition newDtxProxyWithConfig (conn : Conn) (testConfig : XCTestConfiguration)
    (testListener : TestListener) : dtxproxy :=
  {| daemonConnection := conn; dtxConnection := conn;
     ideInterface_testConfig := testConfig; proxy_listener := testListener |}.

(** [time.Second], in nanoseconds. *)
Definition time_Second : Z := 1000000000.

(** [<-c]. *)
Definition recv (name : chan_name) (c : chan) : M unit :=
  match c with
  | ready_at t => emit (EvRecv name t)
  | never => ([], Blocks)
  end.

(** [c <- v]. *)
Definition send (name : chan_name) (c : chan) : M unit :=
  match c with
  | ready_at t => emit (EvSend name t)
  | never => ([], Blocks)
  end.

Definition localCaps : XCTCapabilities :=
  {| CapabilitiesDictionary :=
       <["test timeout capability" := VUint64 1]>
       (<["skipped test capability" := VUint64 1]>
       (<["XCTIssue capability" := VUint64 1]> ∅)) |}.

Definition emptyCaps : XCTCapabilities := {| CapabilitiesDictionary := ∅ |}.

(** The literal [ProxyDispatcher{id: "emty"}]: the fields it does not name
    are zero, so both channels of the dispatcher are nil. The dispatcher is
    handed to [ForChannelRequest] by value, and nothing assigns to the
    variable afterwards. *)
Definition dispatcher : ProxyDispatcher :=
  {| id := "emty";
     dispatcher_closeChannel := nil_chan;
     dispatcher_closedChannel := nil_chan |}.

(** ** RunXUITestWithBundleIdsXcode12Ctx *)

(** The end of [RunXUITestWithBundleIdsXcode12Ctx], from [if ctx != nil]
    on: the wait for the end of the session and the kill of the runner. *)
Definition wait_for_end (ctx : option Context) (pControl : ProcessControl)
    (pid : Z) (proxyDispatcher : ProxyDispatcher) : M (option error) :=
  match ctx with
  | Some ctx =>
      recv ctx_Done (Done ctx) ;;;
      logf InfoLevel "Killing test runner with pid %d ..." [LUint64 pid] ;;;
      err <- call_KillProcess pControl pid ;;
      match err with
      | Some err =>
          ret (Some (fmt_Errorf "RunXUITestWithBundleIdsXcode12Ctx: cannot kill test runner: " err))
      | None =>
          logf InfoLevel "Test runner killed with success" [] ;;;
          ret None
      end
  | None =>
  recv closeChannel (dispatcher_closeChannel proxyDispatcher) ;;;
  logf DebugLevel "Killing UITest with pid %d ..." [LUint64 pid] ;;;
  err <- call_KillProcess pControl pid ;;
  match err with
  | Some err =>
      ret (Some (fmt_Errorf "RunXUITestWithBundleIdsXcode12Ctx: cannot kill test runner: " err))
  | None =>
  logf DebugLevel "Test runner killed with success" [] ;;;
  send closedChannel (dispatcher_closedChannel proxyDispatcher) ;;;
  ret None
  end end.

Definition RunXUITestWithBundleIdsXcode12Ctx (w : World) (ctx : option Context)
    (bundleID testRunnerBundleID xctestConfigFileName : string)
    (device : DeviceEntry) (args env : list string) (testListener : TestListener)
  : M (option error) :=
  let conn := {| conn_no := 0 |} in
  match NewUsbmuxdConnection w 0 device (testmanagerdiOS14 w) with
  | Some err =>
      ret (Some (fmt_Errorf "RunXUITestWithBundleIdsXcode12Ctx: cannot create a usbmuxd connection to testmanagerd: " err))
  | None =>
  let '({| testSessionId := testSessionId; xctestConfigPath := xctestConfigPath;
           testConfig := testConfig; testInfo_of := testInfo |}, err) :=
    setupXcuiTest w device bundleID testRunnerBundleID xctestConfigFileName in
  match err with
  | Some err =>
      ret (Some (fmt_Errorf "RunXUITestWithBundleIdsXcode12Ctx: cannot setup test config: " err))
  | None =>
  defer [EvClose (ResConn conn)] (
  let ideDaemonProxy := newDtxProxyWithConfig conn testConfig testListener in
  let conn2 := {| conn_no := 1 |} in
  match NewUsbmuxdConnection w 1 device (testmanagerdiOS14 w) with
  | Some err =>
      ret (Some (fmt_Errorf "RunXUITestWithBundleIdsXcode12Ctx: cannot create a usbmuxd connection to testmanagerd: " err))
  | None =>
  defer [EvClose (ResConn conn2)] (
  logf DebugLevel "connections ready" [] ;;;
  let ideDaemonProxy2 := newDtxProxyWithConfig conn2 testConfig testListener in
  emit (EvInitiateControlSession (daemonConnection ideDaemonProxy) emptyCaps) ;;;
  let '(caps, err) :=
    initiateControlSessionWithCapabilities w (daemonConnection ideDaemonProxy) emptyCaps in
  match err with
  | Some err =>
      ret (Some (fmt_Errorf "RunXUITestWithBundleIdsXcode12Ctx: cannot initiate a control session with capabilities: " err))
  | None =>
  logf DebugLevel "" [LCaps caps] ;;;
  emit (EvInitiateSession (daemonConnection ideDaemonProxy2) testSessionId localCaps) ;;;
  let '(caps2, err) :=
    initiateSessionWithIdentifierAndCaps w (daemonConnection ideDaemonProxy2)
      testSessionId localCaps in
  match err with
  | Some err =>
      ret (Some (fmt_Errorf "RunXUITestWithBundleIdsXcode12Ctx: cannot initiate a session with identifier and capabilities: " err))
  | None =>
  logf DebugLevel "" [LCaps caps2] ;;;
  let '(pControl, err) := NewProcessControl w device in
  match err with
  | Some err =>
      ret (Some (fmt_Errorf "RunXUITestWithBundleIdsXcode12Ctx: cannot connect to process control: " err))
  | None =>
  defer [EvClose ResProcessControl] (
  started <- startTestRunner12 pControl xctestConfigPath testRunnerBundleID
               (UUID_String testSessionId)
               (testrunnerAppPath testInfo +:+ "/PlugIns/" +:+ xctestConfigFileName)
               args env ;;
  let '(pid, err) := started in
  match err with
  | Some err =>
      ret (Some (fmt_Errorf "RunXUITestWithBundleIdsXcode12Ctx: cannot start test runner: " err))
  | None =>
  logf DebugLevel "Runner started with pid:%d, waiting for testBundleReady" [LUint64 pid] ;;;
  let proxyDispatcher := dispatcher in
  emit (EvForChannelRequest (dtxConnection ideDaemonProxy2) (id proxyDispatcher)) ;;;
  let ideInterfaceChannel :=
    ForChannelRequest w (dtxConnection ideDaemonProxy2) (id proxyDispatcher) in
  emit (EvSleep time_Second) ;;;
  emit (EvAuthorize (daemonConnection ideDaemonProxy) pid) ;;;
  let '(success, _) :=
    authorizeTestSessionWithProcessID w (daemonConnection ideDaemonProxy) pid in
  logf DebugLevel "authorizing test session for pid %d successful %t"
    [LUint64 pid; LBool success] ;;;
  emit (EvStartExecutingTestPlan (daemonConnection ideDaemonProxy2) ideInterfaceChannel 36) ;;;
  match startExecutingTestPlanWithProtocolVersion w (daemonConnection ideDaemonProxy2)
          ideInterfaceChannel 36 with
  | Some err =>
      logf ErrorLevel "" [LError err] ;;;
      ret (Some (fmt_Errorf "RunXUITestWithBundleIdsXcode12Ctx: cannot authorize test session: " err))
  | None =>
  wait_for_end ctx pControl pid proxyDispatcher
  end end) end end end) end) end end.

(** ** The device-condition handlers of the REST api *)

Module api.

Record Profile := { Profile_Identifier : string }.

Record ProfileType := {
  ProfileType_Identifier : string;
  Profiles : list Profile
}.

(** A [*instruments.DeviceStateControl]: instances are told apart by
    their address, the number of instances constructed before them. *)
Record DeviceStateControl := { addr : nat }.

Record deviceCondition := {
  ProfileType_of : ProfileType;
  Profile_of : Profile;
  StateControl : DeviceStateControl
}.

(** What the instruments package answers during one request. *)
Record Instruments := {
  NewDeviceStateControl : DeviceEntry -> option error;
  List : DeviceStateControl -> list ProfileType * option error;
  VerifyProfileAndType :
    list ProfileType -> string -> string -> ProfileType * Profile * option error;
  Enable : DeviceStateControl -> ProfileType -> Profile -> option error;
  Disable : DeviceStateControl -> ProfileType -> option error
}.

(** The calls made on state-control instances, with their answers. *)
Inductive call :=
| CallNew (device : DeviceEntry) (control : DeviceStateControl)
| CallList (control : DeviceStateControl)
| CallEnable (control : DeviceStateControl) (profileType : ProfileType)
    (profile : Profile) (err : option error)
| CallDisable (control : DeviceStateControl) (profileType : ProfileType)
    (err : option error).

(** The package state: [deviceConditionsMap], the instances constructed so
    far, and the calls made on them. [deviceConditionsMutex] is held for
    the whole of either handler, so requests are served one at a time. *)
Record state := {
  deviceConditionsMap : gmap string deviceCondition;
  constructed : nat;
  calls : list call
}.

Definition init : state :=
  {| deviceConditionsMap := ∅; constructed := 0; calls := [] |}.

(** [*gin.Context]: the device put there under [IOS_KEY] and the query
    parameters. *)
Record Context := {
  device : DeviceEntry;
  Query : string -> string
}.

Record GenericResponse := { resp_Error : string; resp_Message : string }.

Definition StatusOK : Z := 200.
Definition StatusUnprocessableEntity : Z := 422.
Definition StatusInternalServerError : Z := 500.

Definition failure (msg : string) : GenericResponse :=
  {| resp_Error := msg; resp_Message := "" |}.
Definition message (msg : string) : GenericResponse :=
  {| resp_Error := ""; resp_Message := msg |}.

Definition record_call (c : call) (st : state) : state :=
  {| deviceConditionsMap := deviceConditionsMap st;
     constructed := constructed st;
     calls := calls st ++ [c] |}.

Definition EnableDeviceCondition (ins : Instruments) (c : Context) (st : state)
  : state * (Z * GenericResponse) :=
  let udid := SerialNumber (device c) in
  match deviceConditionsMap st !! udid with
  | Some conditionedDevice =>
      (st, (StatusOK,
            failure ("Device has an active condition - profileTypeID="
                     +:+ ProfileType_Identifier (ProfileType_of conditionedDevice)
                     +:+ ", profileID="
                     +:+ Profile_Identifier (Profile_of conditionedDevice))))
  | None =>
  let profileTypeID := Query c "profileTypeID" in
  if String.eqb profileTypeID "" then
    (st, (StatusUnprocessableEntity, failure "profileTypeID query param is missing"))
  else
  let profileID := Query c "profileID" in
  if String.eqb profileID "" then
    (st, (StatusUnprocessableEntity, failure "profileID query param is missing"))
  else
  match NewDeviceStateControl ins (device c) with
  | Some err => (st, (StatusInternalServerError, failure (Error err)))
  | None =>
  let control := {| addr := constructed st |} in
  let st := {| deviceConditionsMap := deviceConditionsMap st;
               constructed := S (constructed st);
               calls := calls st ++ [CallNew (device c) control] |} in
  let st := record_call (CallList control) st in
  let '(profileTypes, err) := List ins control in
  match err with
  | Some err => (st, (StatusInternalServerError, failure (Error err)))
  | None =>
  let '(profileType, profile, err) :=
    VerifyProfileAndType ins profileTypes profileTypeID profileID in
  match err with
  | Some err => (st, (StatusInternalServerError, failure (Error err)))
  | None =>
  let err := Enable ins control profileType profile in
  let st := record_call (CallEnable control profileType profile err) st in
  match err with
  | Some err => (st, (StatusInternalServerError, failure (Error err)))
  | None =>
  let newDeviceCondition :=
    {| ProfileType_of := profileType; Profile_of := profile;
       StateControl := control |} in
  let st := {| deviceConditionsMap :=
                 <[SerialNumber (device c) := newDeviceCondition]>
                   (deviceConditionsMap st);
               constructed := constructed st;
               calls := calls st |} in
  (st, (StatusOK,
        message ("Enabled condition for ProfileType=" +:+ profileTypeID
                 +:+ " and Profile=" +:+ profileID)))
  end end end end end.

Definition DisableDeviceCondition (ins : Instruments) (c : Context) (st : state)
  : state * (Z * GenericResponse) :=
  let udid := SerialNumber (device c) in
  match deviceConditionsMap st !! udid with
  | None => (st, (StatusOK, failure "Device has no active condition"))
  | Some conditionedDevice =>
  let err := Disable ins (StateControl conditionedDevice)
               (ProfileType_of conditionedDevice) in
  let st := record_call (CallDisable (StateControl conditionedDevice)
                           (ProfileType_of conditionedDevice) err) st in
  match err with
  | Some err => (st, (StatusInternalServerError, failure (Error err)))
  | None =>
  let st := {| deviceConditionsMap := delete udid (deviceConditionsMap st);
               constructed := constructed st;
               calls := calls st |} in
  (st, (StatusOK, message "Device condition disabled"))
  end end.

(** Requests to the two routes, each with the answers instruments gives
    while it is served. *)
Inductive request :=
| PutEnableCondition (ins : Instruments) (c : Context)
| PostDisableCondition (ins : Instruments) (c : Context).

Definition handle (st : state) (r : request) : state :=
  match r with
  | PutEnableCondition ins c => fst (EnableDeviceCondition ins c st)
  | PostDisableCondition ins c => fst (DisableDeviceCondition ins c st)
  end.

Definition serve (requests : list request) : state :=
  fold_left handle requests init.

(** The three calls by which instance [control], constructed for
    [device], enabled a condition. *)
Definition enabling_calls (device : DeviceEntry) (cond : deviceCondition)
  : list call :=
  [CallNew device (StateControl cond);
   CallList (StateControl cond);
   CallEnable (StateControl cond) (ProfileType_of cond) (Profile_of cond) None].

(** Every recorded condition was enabled, for the device it is recorded
    under, by the instance recorded with it. *)
Definition recorded_by_enabler (st : state) : Prop :=
  forall udid cond,
    deviceConditionsMap st !! udid = Some cond ->
    exists device before after,
      SerialNumber device = udid
      /\ calls st = before ++ enabling_calls device cond ++ after.

(** The addresses of the instances constructed, in order. *)
Definition constructed_instances (cs : list call) : list nat :=
  omap (fun c => match c with CallNew _ control => Some (addr control) | _ => None end)
    cs.

(** Sample answers of instruments: one profile type with one profile. *)
Definition slow_network : ProfileType :=
  {| ProfileType_Identifier := "SlowNetworkCondition";
     Profiles := [{| Profile_Identifier := "SlowNetwork100PctLoss" |}] |}.

Definition sample_instruments : Instruments :=
  {| NewDeviceStateControl := fun _ => None;
     List := fun _ => ([slow_network], None);
     VerifyProfileAndType := fun _ _ _ =>
       (slow_network, {| Profile_Identifier := "SlowNetwork100PctLoss" |}, None);
     Enable := fun _ _ _ => None;
     Disable := fun _ _ => None |}.

Definition sample_request (udid : string) : Context :=
  {| device := {| SerialNumber := udid |};
     Query := fun name =>
       if String.eqb name "profileTypeID" then "SlowNetworkCondition"
       else if String.eqb name "profileID" then "SlowNetwork100PctLoss"
       else "" |}.

End api.

(** ** Reading an environment entry

    [entry[0]] and [entry[1]] of [strings.Split(entrystring, "=")], for an
    entry where both exist: the text before the first "=" and the text
    between the first "=" and the second (or the end). *)

Definition entry_key (entrystring : string) : string :=
  default "" (strings.Split entrystring "=" !! 0%nat).

Definition entry_value (entrystring : string) : string :=
  default "" (strings.Split entrystring "=" !! 1%nat).

Definition has_eq (entrystring : string) : Prop :=
  strings.Contains entrystring "=" = true.

Definition extra_env_log (e : string) : event :=
  EvLog DebugLevel "adding extra env %s=%s" [LString (entry_key e); LString (entry_value e)].

Definition put_entry (env : gmap string value) (e : string) : gmap string value :=
  <[entry_key e := VString (entry_value e)]> env.

(** A variable a caller supplies, as a name and a value, the entry
    "name=value" that stands for it in the environment list, and what
    setting it does to a mapping. *)
Definition env_entry (variable : string * string) : string :=
  variable.1 +:+ "=" +:+ variable.2.

Definition plain_variable (variable : string * string) : Prop :=
  strings.Contains variable.1 "=" = false /\ strings.Contains variable.2 "=" = false.

Definition put_variable (env : gmap string value) (variable : string * string)
  : gmap string value :=
  <[variable.1 := VString variable.2]> env.

(** The keys of the [env] literal. *)
Definition baseline_keys : gset string :=
  {[ "CA_ASSERT_MAIN_THREAD_TRANSACTIONS"; "CA_DEBUG_TRANSACTIONS";
     "DYLD_INSERT_LIBRARIES"; "MTC_CRASH_ON_REPORT"; "NSUnbufferedIO";
     "OS_ACTIVITY_DT_MODE"; "SQLITE_ENABLE_THREAD_ASSERTIONS";
     "XCTestBundlePath"; "XCTestConfigurationFilePath";
     "XCTestSessionIdentifier" ]}.

(** The error a run returns when [KillProcess] reports [err]. *)
Definition kill_error (err : error) : error :=
  fmt_Errorf "RunXUITestWithBundleIdsXcode12Ctx: cannot kill test runner: " err.

(** ** Reading a run *)

(** The two connections of a run: the first one dialled carries the control
    session, the second the named test session. *)
Definition primary : Conn := {| conn_no := 0 |}.
Definition secondary : Conn := {| conn_no := 1 |}.

(** The deferred calls of a run that got as far as process control, in the
    order they run. *)
Definition deferred_closes : list event :=
  [EvClose ResProcessControl; EvClose (ResConn secondary); EvClose (ResConn primary)].

(** The process ids [KillProcess] was called with. *)
Definition killed (tr : list event) : list Z :=
  omap (fun ev => match ev with EvKillProcess pid => Some pid | _ => None end) tr.

(** The channels a run received from, with the tick of each receive. *)
Definition received (tr : list event) : list (chan_name * nat) :=
  omap (fun ev => match ev with EvRecv ch t => Some (ch, t) | _ => None end) tr.

(** The session identifiers handed to [initiateSessionWithIdentifierAndCaps],
    with the connection each went to. *)
Definition session_tokens (tr : list event) : list (Conn * UUID) :=
  omap (fun ev => match ev with
                  | EvInitiateSession c sid _ => Some (c, sid)
                  | _ => None
                  end) tr.

Section Launched.

Variable w : World.
Variables bundleID testRunnerBundleID xctestConfigFileName : string.
Variable device : DeviceEntry.
Variables args env : list string.

Definition setup : setup_values :=
  fst (setupXcuiTest w device bundleID testRunnerBundleID xctestConfigFileName).

Definition start_runner (pControl : ProcessControl) : M (Z * option error) :=
  startTestRunner12 pControl (xctestConfigPath setup) testRunnerBundleID
    (UUID_String (testSessionId setup))
    (testrunnerAppPath (testInfo_of setup) +:+ "/PlugIns/" +:+ xctestConfigFileName)
    args env.

(** Every step up to and including the launch of the runner went through:
    the run holds process control [pControl] and the runner has [pid]. *)
Record runner_launched (pControl : ProcessControl) (pid : Z) : Prop := {
  dialled_primary : NewUsbmuxdConnection w 0 device (testmanagerdiOS14 w) = None;
  set_up :
    snd (setupXcuiTest w device bundleID testRunnerBundleID xctestConfigFileName)
    = None;
  dialled_secondary : NewUsbmuxdConnection w 1 device (testmanagerdiOS14 w) = None;
  control_session_open :
    snd (initiateControlSessionWithCapabilities w primary emptyCaps) = None;
  session_open :
    snd (initiateSessionWithIdentifierAndCaps w secondary (testSessionId setup)
           localCaps) = None;
  process_control_open : NewProcessControl w device = (pControl, None);
  runner_runs : result (start_runner pControl) = Val (pid, None)
}.

(** The calls of such a run up to the launch, and from the launch to the
    start of the test plan. *)
Definition launch_trace (pControl : ProcessControl) : list event :=
  [EvLog DebugLevel "connections ready" [];
   EvInitiateControlSession primary emptyCaps;
   EvLog DebugLevel "" [LCaps (fst (initiateControlSessionWithCapabilities w primary emptyCaps))];
   EvInitiateSession secondary (testSessionId setup) localCaps;
   EvLog DebugLevel "" [LCaps (fst (initiateSessionWithIdentifierAndCaps w secondary
                                 (testSessionId setup) localCaps))]]
  ++ trace (start_runner pControl).

Definition authorize_trace (pid : Z) : list event :=
  [EvLog DebugLevel "Runner started with pid:%d, waiting for testBundleReady" [LUint64 pid];
   EvForChannelRequest secondary "emty";
   EvSleep time_Second;
   EvAuthorize primary pid;
   EvLog DebugLevel "authorizing test session for pid %d successful %t"
     [LUint64 pid; LBool (fst (authorizeTestSessionWithProcessID w primary pid))];
   EvStartExecutingTestPlan secondary (ForChannelRequest w secondary "emty") 36].

(** Everything such a run did before it learns whether the test plan
    started. *)
Definition before_test_plan (pControl : ProcessControl) (pid : Z) : list event :=
  launch_trace pControl ++ authorize_trace pid.

Definition test_plan_answer : option error :=
  startExecutingTestPlanWithProtocolVersion w secondary
    (ForChannelRequest w secondary "emty") 36.

(** The events of a run that ended before the runner was up: logging, the
    two session calls with the arguments the code gives them, an attempt
    to start the runner, and the deferred closes. *)
Definition early_event (ev : event) : Prop :=
  match ev with
  | EvLog _ _ _ | EvStartProcess _ _ _ _ | EvClose _ => True
  | EvInitiateControlSession c caps => c = primary /\ caps = emptyCaps
  | EvInitiateSession c sid caps =>
      c = secondary /\ sid = testSessionId setup /\ caps = localCaps
  | _ => False
  end.

End Launched.

(** ** Sample collaborators *)

Definition pc_ok : ProcessControl :=
  {| StartProcess := fun _ _ _ _ => (77, None); KillProcess := fun _ => None |}.

Definition pc_kill_fails : ProcessControl :=
  {| StartProcess := fun _ _ _ _ => (77, None);
     KillProcess := fun _ => Some (errors_New "process not found") |}.

Definition sample_setup (sessionId : string) : setup_values :=
  {| testSessionId := {| UUID_String := sessionId |};
     xctestConfigPath := "/tmp/Runner.xctestconfiguration";
     testConfig := {| TestBundleURL := "file:///app/PlugIns/Runner.xctest" |};
     testInfo_of := {| testrunnerAppPath := "/app" |} |}.

(** A device on which every step answers without error, up to the four
    things the examples vary: the session identifier [setupXcuiTest] makes
    up, process control, and the answer to the start of the test plan. *)
Definition sample_world (sessionId : string) (pControl : ProcessControl)
    (plan : option error) : World :=
  {| testmanagerdiOS14 := "com.apple.testmanagerd.lockdown.secure";
     NewUsbmuxdConnection := fun _ _ _ => None;
     setupXcuiTest := fun _ _ _ _ => (sample_setup sessionId, None);
     initiateControlSessionWithCapabilities := fun _ caps => (caps, None);
     initiateSessionWithIdentifierAndCaps := fun _ _ caps => (caps, None);
     NewProcessControl := fun _ => (pControl, None);
     ForChannelRequest := fun _ _ => 1%nat;
     authorizeTestSessionWithProcessID := fun _ _ => (true, None);
     startExecutingTestPlanWithProtocolVersion := fun _ _ _ => plan |}.

Definition sample_device : DeviceEntry :=
  {| SerialNumber := "00008030-001C195E0E88802E" |}.

Definition sample_run (w : World) (ctx : option Context) : M (option error) :=
  RunXUITestWithBundleIdsXcode12Ctx w ctx "com.app.under.test" "com.app.runner"
    "Runner.xctest" sample_device [] [] {| listener_no := 0 |}.


(** The signal that ends the wait of a run: the context's when one was
    supplied, the dispatcher's close channel, which is nil, otherwise. *)
Definition end_signal (ctx : option Context) : chan :=
  match ctx with
  | Some ctx => Done ctx
  | None => dispatcher_closeChannel dispatcher
  end.


Definition is_authorize (ev : event) : Prop :=
  match ev with EvAuthorize _ _ => True | _ => False end.

(** The bundle identifiers [StartProcess] was called with. *)
Definition started (tr : list event) : list string :=
  omap (fun ev => match ev with EvStartProcess b _ _ _ => Some b | _ => None end) tr.

(** ** The shapes of a run

    Every run of [RunXUITestWithBundleIdsXcode12Ctx] leaves the function at
    one of its returns, or panics inside [startTestRunner12], or stays
    parked on a channel; [run_shape] lists, for each of these, the calls
    made and the outcome. *)

Definition is_log (ev : event) : Prop :=
  match ev with EvLog _ _ _ => True | _ => False end.

(** The place of a call in the pipeline; log lines have none. *)
Definition stage (ev : event) : option nat :=
  match ev with
  | EvLog _ _ _ => None
  | EvInitiateControlSession _ _ => Some 1%nat
  | EvInitiateSession _ _ _ => Some 2%nat
  | EvStartProcess _ _ _ _ => Some 3%nat
  | EvForChannelRequest _ _ => Some 4%nat
  | EvSleep _ => Some 5%nat
  | EvAuthorize _ _ => Some 6%nat
  | EvStartExecutingTestPlan _ _ _ => Some 7%nat
  | EvRecv _ _ => Some 8%nat
  | EvKillProcess _ => Some 9%nat
  | EvSend _ _ => Some 10%nat
  | EvClose ResProcessControl => Some 11%nat
  | EvClose (ResConn {| conn_no := S _ |}) => Some 12%nat
  | EvClose (ResConn {| conn_no := O |}) => Some 13%nat
  end.

Definition stages (tr : list event) : list nat := omap stage tr.

(** What a run closed, in order. *)
Definition closed (tr : list event) : list resource :=
  omap (fun ev => match ev with EvClose r => Some r | _ => None end) tr.

(** The calls to [StartProcess], with their arguments. *)
Definition start_calls (tr : list event)
  : list (string * gmap string value * list value * gmap string value) :=
  omap (fun ev => match ev with
                  | EvStartProcess b env args opts => Some (b, env, args, opts)
                  | _ => None
                  end) tr.

Section Shape.

Variable w : World.
Variable ctx : option Context.
Variables bundleID testRunnerBundleID xctestConfigFileName : string.
Variable device : DeviceEntry.
Variables args env : list string.

Local Abbreviation sv :=
  (setup w bundleID testRunnerBundleID xctestConfigFileName device).
Local Abbreviation control :=
  (initiateControlSessionWithCapabilities w primary emptyCaps).
Local Abbreviation session :=
  (initiateSessionWithIdentifierAndCaps w secondary (testSessionId sv) localCaps).

(** The arguments [startTestRunner12] hands to [StartProcess] in a run. *)
Definition runner_env : gmap string value :=
  fold_left put_entry env
    (baseline_env
       (testrunnerAppPath (testInfo_of sv) +:+ "/PlugIns/" +:+ xctestConfigFileName)
       (xctestConfigPath sv) (UUID_String (testSessionId sv))).

Definition runner_call : event :=
  EvStartProcess testRunnerBundleID runner_env (runner_args args) runner_opts.

Definition runner_answer (pControl : ProcessControl) : Z * option error :=
  StartProcess pControl testRunnerBundleID runner_env (runner_args args) runner_opts.

Definition control_events : list event :=
  [EvLog DebugLevel "connections ready" [];
   EvInitiateControlSession primary emptyCaps].

Definition session_events : list event :=
  [EvLog DebugLevel "" [LCaps (fst control)];
   EvInitiateSession secondary (testSessionId sv) localCaps].

Definition session_log : list event :=
  [EvLog DebugLevel "" [LCaps (fst session)]].

Definition connection_closes : list event :=
  [EvClose (ResConn secondary); EvClose (ResConn primary)].

(** The calls of a run up to the start of the test plan. *)
Definition started_trace (pid : Z) : list event :=
  control_events ++ session_events ++ session_log
    ++ (extra_env_log <$> env) ++ [runner_call] ++ authorize_trace w pid.

Inductive run_shape : M (option error) -> Prop :=
| shape_dial (e : error) :
    NewUsbmuxdConnection w 0 device (testmanagerdiOS14 w) = Some e ->
    run_shape
      ([], Val (Some (fmt_Errorf "RunXUITestWithBundleIdsXcode12Ctx: cannot create a usbmuxd connection to testmanagerd: " e)))
| shape_setup (e : error) :
    NewUsbmuxdConnection w 0 device (testmanagerdiOS14 w) = None ->
    snd (setupXcuiTest w device bundleID testRunnerBundleID xctestConfigFileName)
    = Some e ->
    run_shape
      ([], Val (Some (fmt_Errorf "RunXUITestWithBundleIdsXcode12Ctx: cannot setup test config: " e)))
| shape_dial2 (e : error) :
    NewUsbmuxdConnection w 0 device (testmanagerdiOS14 w) = None ->
    snd (setupXcuiTest w device bundleID testRunnerBundleID xctestConfigFileName)
    = None ->
    NewUsbmuxdConnection w 1 device (testmanagerdiOS14 w) = Some e ->
    run_shape
      ([EvClose (ResConn primary)],
       Val (Some (fmt_Errorf "RunXUITestWithBundleIdsXcode12Ctx: cannot create a usbmuxd connection to testmanagerd: " e)))
| shape_control (e : error) :
    NewUsbmuxdConnection w 0 device (testmanagerdiOS14 w) = None ->
    snd (setupXcuiTest w device bundleID testRunnerBundleID xctestConfigFileName)
    = None ->
    NewUsbmuxdConnection w 1 device (testmanagerdiOS14 w) = None ->
    snd control = Some e ->
    run_shape
      (control_events ++ connection_closes,
       Val (Some (fmt_Errorf "RunXUITestWithBundleIdsXcode12Ctx: cannot initiate a control session with capabilities: " e)))
| shape_session (e : error) :
    NewUsbmuxdConnection w 0 device (testmanagerdiOS14 w) = None ->
    snd (setupXcuiTest w device bundleID testRunnerBundleID xctestConfigFileName)
    = None ->
    NewUsbmuxdConnection w 1 device (testmanagerdiOS14 w) = None ->
    snd control = None ->
    snd session = Some e ->
    run_shape
      (control_events ++ session_events ++ connection_closes,
       Val (Some (fmt_Errorf "RunXUITestWithBundleIdsXcode12Ctx: cannot initiate a session with identifier and capabilities: " e)))
| shape_process_control (pControl : ProcessControl) (e : error) :
    NewUsbmuxdConnection w 0 device (testmanagerdiOS14 w) = None ->
    snd (setupXcuiTest w device bundleID testRunnerBundleID xctestConfigFileName)
    = None ->
    NewUsbmuxdConnection w 1 device (testmanagerdiOS14 w) = None ->
    snd control = None ->
    snd session = None ->
    NewProcessControl w device = (pControl, Some e) ->
    run_shape
      (control_events ++ session_events ++ session_log ++ connection_closes,
       Val (Some (fmt_Errorf "RunXUITestWithBundleIdsXcode12Ctx: cannot connect to process control: " e)))
| shape_runner_panic (pControl : ProcessControl) (logs : list event) :
    NewUsbmuxdConnection w 0 device (testmanagerdiOS14 w) = None ->
    snd (setupXcuiTest w device bundleID testRunnerBundleID xctestConfigFileName)
    = None ->
    NewUsbmuxdConnection w 1 device (testmanagerdiOS14 w) = None ->
    snd control = None ->
    snd session = None ->
    NewProcessControl w device = (pControl, None) ->
    Exists (fun e => ~ has_eq e) env ->
    Forall is_log logs ->
    run_shape
      (control_events ++ session_events ++ session_log ++ logs ++ deferred_closes,
       Panics (IndexOutOfRange 1 1))
| shape_runner_refused (pControl : ProcessControl) (pid : Z) (e : error) :
    NewUsbmuxdConnection w 0 device (testmanagerdiOS14 w) = None ->
    snd (setupXcuiTest w device bundleID testRunnerBundleID xctestConfigFileName)
    = None ->
    NewUsbmuxdConnection w 1 device (testmanagerdiOS14 w) = None ->
    snd control = None ->
    snd session = None ->
    NewProcessControl w device = (pControl, None) ->
    Forall has_eq env ->
    runner_answer pControl = (pid, Some e) ->
    run_shape
      (control_events ++ session_events ++ session_log
         ++ (extra_env_log <$> env) ++ [runner_call] ++ deferred_closes,
       Val (Some (fmt_Errorf "RunXUITestWithBundleIdsXcode12Ctx: cannot start test runner: " e)))
| shape_plan_refused (pControl : ProcessControl) (pid : Z) (e : error) :
    runner_launched w bundleID testRunnerBundleID xctestConfigFileName device
      args env pControl pid ->
    test_plan_answer w = Some e ->
    run_shape
      (started_trace pid ++ [EvLog ErrorLevel "" [LError e]] ++ deferred_closes,
       Val (Some (fmt_Errorf "RunXUITestWithBundleIdsXcode12Ctx: cannot authorize test session: " e)))
| shape_parked (pControl : ProcessControl) (pid : Z) :
    runner_launched w bundleID testRunnerBundleID xctestConfigFileName device
      args env pControl pid ->
    test_plan_answer w = None ->
    end_signal ctx = never ->
    run_shape (started_trace pid, Blocks)
| shape_cancelled_kill_refused (pControl : ProcessControl) (pid : Z)
    (c : Context) (t : nat) (e : error) :
    runner_launched w bundleID testRunnerBundleID xctestConfigFileName device
      args env pControl pid ->
    test_plan_answer w = None ->
    ctx = Some c -> Done c = ready_at t ->
    KillProcess pControl pid = Some e ->
    run_shape
      (started_trace pid
         ++ [EvRecv ctx_Done t;
             EvLog InfoLevel "Killing test runner with pid %d ..." [LUint64 pid];
             EvKillProcess pid]
         ++ deferred_closes,
       Val (Some (kill_error e)))
| shape_cancelled (pControl : ProcessControl) (pid : Z) (c : Context) (t : nat) :
    runner_launched w bundleID testRunnerBundleID xctestConfigFileName device
      args env pControl pid ->
    test_plan_answer w = None ->
    ctx = Some c -> Done c = ready_at t ->
    KillProcess pControl pid = None ->
    run_shape
      (started_trace pid
         ++ [EvRecv ctx_Done t;
             EvLog InfoLevel "Killing test runner with pid %d ..." [LUint64 pid];
             EvKillProcess pid;
             EvLog InfoLevel "Test runner killed with success" []]
         ++ deferred_closes,
       Val None).

End Shape.

(** ** Requests to the condition routes *)

(** The device a request is about. *)
Definition request_device (r : api.request) : DeviceEntry :=
  match r with
  | api.PutEnableCondition _ c => api.device c
  | api.PostDisableCondition _ c => api.device c
  end.

(** The instances on which [Enable] returned without error, with the
    profile type enabled. *)
Definition enabled_instances (cs : list api.call)
  : list (api.DeviceStateControl * api.ProfileType) :=
  omap (fun c => match c with
                 | api.CallEnable control profileType _ None => Some (control, profileType)
                 | _ => None
                 end) cs.

(** The instances on which [Disable] was called, with the profile type. *)
Definition disabled_instances (cs : list api.call)
  : list (api.DeviceStateControl * api.ProfileType) :=
  omap (fun c => match c with
                 | api.CallDisable control profileType _ => Some (control, profileType)
                 | _ => None
                 end) cs.

(** The instances in the table are ones constructed before, and no two
    devices are recorded with the same instance. *)
Definition instances_apart (st : api.state) : Prop :=
  (forall udid cond,
      api.deviceConditionsMap st !! udid = Some cond ->
      (api.addr (api.StateControl cond) < api.constructed st)%nat)
  /\ (forall udid1 udid2 cond1 cond2,
        api.deviceConditionsMap st !! udid1 = Some cond1 ->
        api.deviceConditionsMap st !! udid2 = Some cond2 ->
        api.StateControl cond1 = api.StateControl cond2 ->
        udid1 = udid2).

(** * The other device routes of package [api]

    [SetLocation], [ResetLocation], [GetProfiles], [GetSupportedConditions]
    and [PairDevice], of the same file as the two condition routes. A
    handler is read as the calls it makes on the device packages and the
    responses it writes with [c.JSON], in order. *)
Module routes.

Section Routes.

(** The type of what [HandleList] returns; the handler only passes it on. *)
Context {ProfileInfo : Type}.

(** [gin.H] is a map from field names to values; the values written here
    are strings. *)
Inductive body :=
| Generic (r : api.GenericResponse)
| gin_H (fields : gmap string string)
| Profiles (profileInfo : ProfileInfo)
| ProfileTypes (profileTypes : list api.ProfileType).

Definition StatusNotFound : Z := 404.

(** What [c.Request.FormFile] returns: an error, or a file, given by the
    bytes [ReadFrom] gets out of it (its own error is dropped). *)
Inductive form_file :=
| NoFile (err : error)
| File (read : list Byte.byte).

(** [*gin.Context] with the parts of the request [PairDevice] reads. *)
Record Request := {
  ctx : api.Context;
  FormFile : string -> form_file;
  Header_Get : string -> string
}.

(** What the device packages answer during one request. *)
Record Services := {
  simlocation_SetLocation : DeviceEntry -> string -> string -> option error;
  simlocation_ResetLocation : DeviceEntry -> option error;
  mcinstall_New : DeviceEntry -> option error;
  HandleList : ProfileInfo * option error;
  ios_Pair : DeviceEntry -> option error;
  ios_PairSupervised : DeviceEntry -> list Byte.byte -> string -> option error
}.

Inductive event :=
| CallSetLocation (device : DeviceEntry) (latitude longtitude : string)
| CallResetLocation (device : DeviceEntry)
| CallMcinstallNew (device : DeviceEntry)
| CallHandleList
| CallMcinstallClose
| CallPair (device : DeviceEntry)
| CallPairSupervised (device : DeviceEntry) (p12 : list Byte.byte) (password : string)
| JSON (code : Z) (obj : body).

Definition SetLocation (s : Services) (c : api.Context) : list event :=
  let device := api.device c in
  let latitude := api.Query c "latitude" in
  if String.eqb latitude "" then
    [JSON api.StatusUnprocessableEntity
       (Generic (api.failure "latitude query param is missing"))]
  else
  let longtitude := api.Query c "longtitude" in
  if String.eqb longtitude "" then
    [JSON api.StatusUnprocessableEntity
       (Generic (api.failure "longtitude query param is missing"))]
  else
  CallSetLocation device latitude longtitude
  :: match simlocation_SetLocation s device latitude longtitude with
     | Some err => [JSON api.StatusInternalServerError (Generic (api.failure (Error err)))]
     | None =>
         [JSON api.StatusOK
            (Generic (api.message ("Device location set to latitude=" +:+ latitude
                                   +:+ ", longtitude=" +:+ longtitude)))]
     end.

Definition ResetLocation (s : Services) (c : api.Context) : list event :=
  let device := api.device c in
  CallResetLocation device
  :: match simlocation_ResetLocation s device with
     | Some err => [JSON api.StatusInternalServerError (Generic (api.failure (Error err)))]
     | None => [JSON api.StatusOK (Generic (api.message "Device location reset"))]
     end.

(** The deferred [mcinstallconn.Close()] runs when the handler returns,
    after the response is written. *)
Definition GetProfiles (s : Services) (c : api.Context) : list event :=
  let device := api.device c in
  CallMcinstallNew device
  :: match mcinstall_New s device with
     | Some err =>
         [JSON api.StatusInternalServerError
            (gin_H (<["message" := "Failed getting device list with error"]>
                      (<["error" := Error err]> ∅)))]
     | None =>
         (CallHandleList
          :: match HandleList s with
             | (_, Some err) =>
                 [JSON StatusNotFound
                    (gin_H (<["message" := "Failed getting profile list with error"]>
                              (<["error" := Error err]> ∅)))]
             | (profileInfo, None) => [JSON api.StatusOK (Profiles profileInfo)]
             end)
         ++ [CallMcinstallClose]
     end.

Definition PairDevice (s : Services) (r : Request) : list event :=
  let device := api.device (ctx r) in
  let supervised := api.Query (ctx r) "supervised" in
  if String.eqb supervised "" then
    [JSON api.StatusUnprocessableEntity
       (Generic (api.failure "supervised query param is missing (true/false)"))]
  else
  if String.eqb supervised "false" then
    CallPair device
    :: match ios_Pair s device with
       | Some err =>
           [JSON api.StatusInternalServerError (Generic (api.failure (Error err)))]
       | None => [JSON api.StatusOK (Generic (api.message "Device paired"))]
       end
  else
  match FormFile r "p12file" with
  | NoFile err =>
      [JSON api.StatusInternalServerError
         (Generic (api.failure
            ("Could not parse p12 file from form-data or no file provided, err:"
             +:+ Error err)))]
  | File p12fileBuf =>
  let supervision_password := Header_Get r "Supervision-Password" in
  if String.eqb supervision_password "" then
    [JSON api.StatusUnprocessableEntity
       (Generic (api.failure
          "you must provide non-empty `Supervision-Password` header with the request"))]
  else
  CallPairSupervised device p12fileBuf supervision_password
  :: match ios_PairSupervised s device p12fileBuf supervision_password with
     | Some err =>
         [JSON api.StatusInternalServerError (Generic (api.failure (Error err)))]
     | None => [JSON api.StatusOK (Generic (api.message "Device paired"))]
     end
  end.

(** [GetSupportedConditions] constructs a state-control instance of its
    own, lists the profile types with it and drops it; it does not take
    [deviceConditionsMutex] and does not read [deviceConditionsMap]. *)
Definition GetSupportedConditions (ins : api.Instruments) (c : api.Context)
    (st : api.state) : api.state * (Z * body) :=
  match api.NewDeviceStateControl ins (api.device c) with
  | Some err =>
      (st, (api.StatusInternalServerError, Generic (api.failure (Error err))))
  | None =>
  let control := {| api.addr := api.constructed st |} in
  let st := {| api.deviceConditionsMap := api.deviceConditionsMap st;
               api.constructed := S (api.constructed st);
               api.calls := api.calls st ++ [api.CallNew (api.device c) control] |} in
  let st := api.record_call (api.CallList control) st in
  let '(profileTypes, err) := api.List ins control in
  match err with
  | Some err =>
      (st, (api.StatusInternalServerError, Generic (api.failure (Error err))))
  | None => (st, (api.StatusOK, ProfileTypes profileTypes))
  end
  end.

(** The responses written, in order. *)
Definition responses (tr : list event) : list (Z * body) :=
  omap (fun e => match e with JSON code obj => Some (code, obj) | _ => None end) tr.

(** The calls made on the device packages, in order. *)
Definition device_calls (tr : list event) : list event :=
  omap (fun e => match e with JSON _ _ => None | _ => Some e end) tr.

(** What [s] answers to a call that can fail. *)
Definition answer (s : Services) (e : event) : option error :=
  match e with
  | CallSetLocation device latitude longtitude =>
      simlocation_SetLocation s device latitude longtitude
  | CallResetLocation device => simlocation_ResetLocation s device
  | CallMcinstallNew device => mcinstall_New s device
  | CallHandleList => snd (HandleList s)
  | CallPair device => ios_Pair s device
  | CallPairSupervised device p12 password => ios_PairSupervised s device p12 password
  | CallMcinstallClose | JSON _ _ => None
  end.

(** The instance a call is made on or constructs. *)
Definition call_instance (k : api.call) : api.DeviceStateControl :=
  match k with
  | api.CallNew _ control | api.CallList control
  | api.CallEnable control _ _ _ | api.CallDisable control _ _ => control
  end.

End Routes.

Arguments body : clear implicits.
Arguments Services : clear implicits.
Arguments event : clear implicits.

End routes.

(** * Properties *)

(** ** [strings.Split] on the separator of the environment entries *)

Lemma append_empty_r (s : string) : s +:+ "" = s.
Proof.
  induction s as [|c s IH]; [reflexivity |].
  change (String c (s +:+ "") = String c s). now rewrite IH.
Qed.

Lemma string_of_list_ascii_snoc (l : list ascii) (c : ascii) (s : string) :
  string_of_list_ascii (l ++ [c]) +:+ s = string_of_list_ascii l +:+ String c s.
Proof.
  induction l as [|a l IH]; [reflexivity |].
  change (String a (string_of_list_ascii (l ++ [c]) +:+ s)
          = String a (string_of_list_ascii l +:+ String c s)).
  now rewrite IH.
Qed.

Lemma genSplit_eq_no_sep (s : string) (cur : list ascii) :
  strings.Contains s "=" = false ->
  strings.genSplit "=" 0 cur s
  = [string_of_list_ascii (rev cur) +:+ s].
Proof.
  revert cur; induction s as [|c s IH]; intros cur H.
  - simpl. now rewrite append_empty_r.
  - cbn in H. apply orb_false_iff in H as [Hc Hs].
    cbn. rewrite Hc. rewrite IH.
    + simpl. now rewrite string_of_list_ascii_snoc.
    + destruct s; exact Hs.
Qed.

Lemma genSplit_length_pos (sep : string) (skip : nat) (cur : list ascii) (s : string) :
  (1 <= length (strings.genSplit sep skip cur s))%nat.
Proof.
  revert skip cur; induction s as [|c s IH]; intros skip cur; simpl; [lia |].
  destruct skip; [| apply IH].
  match goal with |- context [if ?b then _ else _] => destruct b end;
    [simpl; lia | apply IH].
Qed.

Lemma genSplit_eq_sep (s : string) (cur : list ascii) :
  strings.Contains s "=" = true ->
  (2 <= length (strings.genSplit "=" 0 cur s))%nat.
Proof.
  revert cur; induction s as [|c s IH]; intros cur H.
  - discriminate.
  - cbn in H. cbn.
    destruct (Ascii.eqb c "=") eqn:Hc.
    + cbn. pose proof (genSplit_length_pos "=" 0 [] s).
      destruct s; simpl in *; lia.
    + simpl in H. apply IH. exact H.
Qed.

Lemma Split_no_eq (s : string) :
  strings.Contains s "=" = false -> strings.Split s "=" = [s].
Proof. intros H. unfold strings.Split. rewrite genSplit_eq_no_sep by exact H. reflexivity. Qed.

Lemma Split_eq (s : string) :
  strings.Contains s "=" = true -> (2 <= length (strings.Split s "="))%nat.
Proof. apply genSplit_eq_sep. Qed.

Lemma genSplit_eq_prefix (k rest : string) (cur : list ascii) :
  strings.Contains k "=" = false ->
  strings.genSplit "=" 0 cur (k +:+ "=" +:+ rest)
  = (string_of_list_ascii (rev cur) +:+ k) :: strings.genSplit "=" 0 [] rest.
Proof.
  revert cur; induction k as [|c k IH]; intros cur Hk.
  - change ("" +:+ "=" +:+ rest) with (String "=" rest).
    rewrite append_empty_r. destruct rest; reflexivity.
  - cbn in Hk. apply orb_false_iff in Hk as [Hc Hk].
    change (String c k +:+ "=" +:+ rest) with (String c (k +:+ "=" +:+ rest)).
    assert (Hne : Ascii.eqb c "=" = false).
    { destruct (Ascii.eqb c "="); [destruct k; discriminate Hc | reflexivity]. }
    cbn. rewrite Hne. rewrite IH.
    + simpl. now rewrite string_of_list_ascii_snoc.
    + destruct k; exact Hk.
Qed.

Lemma Split_eq_prefix (k rest : string) :
  strings.Contains k "=" = false ->
  strings.Split (k +:+ "=" +:+ rest) "=" = k :: strings.Split rest "=".
Proof. intros Hk. unfold strings.Split. now rewrite genSplit_eq_prefix. Qed.

Lemma Contains_eq_prefix (k rest : string) :
  strings.Contains (k +:+ "=" +:+ rest) "=" = true.
Proof.
  induction k as [|c k IH].
  - change ("" +:+ "=" +:+ rest) with (String "=" rest). destruct rest; reflexivity.
  - change (String c k +:+ "=" +:+ rest) with (String c (k +:+ "=" +:+ rest)).
    cbn. cbn in IH. rewrite IH. apply orb_true_r.
Qed.

(** ** [startTestRunner12] *)

Lemma add_wdaenv_cons (entrystring : string) (rest : list string)
    (env : gmap string value) :
  add_wdaenv (entrystring :: rest) env
  = (key <- index (strings.Split entrystring "=") 0 ;;
     value <- index (strings.Split entrystring "=") 1 ;;
     logf DebugLevel "adding extra env %s=%s" [LString key; LString value] ;;;
     add_wdaenv rest (<[key := VString value]> env)).
Proof. reflexivity. Qed.

Lemma add_wdaenv_ok (wdaenv : list string) (env : gmap string value) :
  Forall has_eq wdaenv ->
  add_wdaenv wdaenv env
  = (extra_env_log <$> wdaenv, Val (fold_left put_entry wdaenv env)).
Proof.
  intros H; revert env; induction H as [|e l He Hl IH]; intros env; [reflexivity |].
  rewrite add_wdaenv_cons, fmap_cons. cbn [fold_left].
  unfold extra_env_log at 1, put_entry at 2, entry_key, entry_value.
  pose proof (Split_eq e He) as Hlen.
  destruct (strings.Split e "=") as [|k [|v rest]]; simpl in Hlen; try lia.
  cbn. rewrite IH. reflexivity.
Qed.

Lemma add_wdaenv_panic (wdaenv : list string) (env : gmap string value) :
  Exists (fun e => ~ has_eq e) wdaenv ->
  result (add_wdaenv wdaenv env) = Panics (IndexOutOfRange 1 1).
Proof.
  intros H; revert env; induction wdaenv as [|e l IH]; intros env.
  - inversion H.
  - rewrite add_wdaenv_cons.
    destruct (strings.Contains e "=") eqn:He.
    + assert (Hl : Exists (fun e => ~ has_eq e) l).
      { inversion H; subst; [contradiction | assumption]. }
      pose proof (Split_eq e He) as Hlen.
      destruct (strings.Split e "=") as [|k [|v rest]]; simpl in Hlen; try lia.
      specialize (IH Hl (<[k := VString v]> env)).
      cbn. destruct (add_wdaenv l _); simpl in *. exact IH.
    + rewrite (Split_no_eq e He). reflexivity.
Qed.

Lemma has_eq_dec (e : string) : {has_eq e} + {~ has_eq e}.
Proof. unfold has_eq. destruct (strings.Contains e "="); [left | right]; congruence. Qed.

(** Lookups in the map the loop builds. *)
Lemma fold_put_entry_other (wdaenv : list string) (env : gmap string value) (k : string) :
  (forall e, e ∈ wdaenv -> entry_key e <> k) ->
  fold_left put_entry wdaenv env !! k = env !! k.
Proof.
  revert env; induction wdaenv as [|e l IH]; intros env H; [reflexivity |].
  simpl. rewrite IH.
  - unfold put_entry. apply lookup_insert_ne. apply H. left.
  - intros e' He'. apply H. now right.
Qed.

Lemma fold_put_entry_last (pre post : list string) (e : string)
    (env : gmap string value) :
  (forall e', e' ∈ post -> entry_key e' <> entry_key e) ->
  fold_left put_entry (pre ++ e :: post) env !! entry_key e
  = Some (VString (entry_value e)).
Proof.
  intros H. rewrite fold_left_app. simpl.
  rewrite fold_put_entry_other by exact H.
  unfold put_entry. apply lookup_insert_eq.
Qed.

Lemma fold_put_entry_union (wdaenv : list string) (env : gmap string value) :
  fold_left put_entry wdaenv env = fold_left put_entry wdaenv ∅ ∪ env.
Proof.
  revert env; induction wdaenv as [|e l IH]; intros env; simpl.
  - now rewrite (left_id_L ∅ (∪)).
  - rewrite IH, (IH (put_entry ∅ e)). unfold put_entry.
    rewrite <- (assoc_L (∪)). f_equal.
    rewrite <- insert_union_l, (left_id_L ∅ (∪)). reflexivity.
Qed.

Lemma add_wdaenv_trace (wdaenv : list string) (env : gmap string value) (ev : event) :
  ev ∈ trace (add_wdaenv wdaenv env) -> exists f a, ev = EvLog DebugLevel f a.
Proof.
  revert env; induction wdaenv as [|e l IH]; intros env.
  - simpl. intros H; inversion H.
  - rewrite add_wdaenv_cons.
    destruct (strings.Split e "=") as [|k [|v rest]]; cbn;
      try (intros H; inversion H; fail).
    specialize (IH (<[k := VString v]> env)).
    destruct (add_wdaenv l _) as [tr o]; simpl in *.
    intros H. apply elem_of_cons in H as [-> | H]; eauto.
Qed.

Lemma startTestRunner12_ok (pControl : ProcessControl)
    (xctestConfigPath bundleID sessionIdentifier testBundlePath : string)
    (wdaargs wdaenv : list string) :
  Forall has_eq wdaenv ->
  let env := fold_left put_entry wdaenv
               (baseline_env testBundlePath xctestConfigPath sessionIdentifier) in
  startTestRunner12 pControl xctestConfigPath bundleID sessionIdentifier
    testBundlePath wdaargs wdaenv
  = ((extra_env_log <$> wdaenv)
       ++ [EvStartProcess bundleID env (runner_args wdaargs) runner_opts],
     Val (StartProcess pControl bundleID env (runner_args wdaargs) runner_opts)).
Proof.
  intros H env. unfold startTestRunner12.
  rewrite add_wdaenv_ok by exact H. reflexivity.
Qed.

Lemma startTestRunner12_panic (pControl : ProcessControl)
    (xctestConfigPath bundleID sessionIdentifier testBundlePath : string)
    (wdaargs wdaenv : list string) :
  Exists (fun e => ~ has_eq e) wdaenv ->
  result (startTestRunner12 pControl xctestConfigPath bundleID sessionIdentifier
            testBundlePath wdaargs wdaenv) = Panics (IndexOutOfRange 1 1)
  /\ forall ev, ev ∈ trace (startTestRunner12 pControl xctestConfigPath bundleID
                              sessionIdentifier testBundlePath wdaargs wdaenv) ->
      exists f a, ev = EvLog DebugLevel f a.
Proof.
  intros H. unfold startTestRunner12.
  pose proof (add_wdaenv_panic wdaenv
                (baseline_env testBundlePath xctestConfigPath sessionIdentifier) H) as Hp.
  pose proof (add_wdaenv_trace wdaenv
                (baseline_env testBundlePath xctestConfigPath sessionIdentifier)) as Ht.
  destruct (add_wdaenv wdaenv _) as [tr o]; simpl in *; subst o. simpl.
  split; [reflexivity | exact Ht].
Qed.

(** Every [StartProcess] call of [startTestRunner12] carries the map the
    loop built, the argument slice and the option literal. *)
Lemma startTestRunner12_call (pControl : ProcessControl)
    (xctestConfigPath bundleID sessionIdentifier testBundlePath : string)
    (wdaargs wdaenv : list string) (b : string) (env : gmap string value)
    (args : list value) (opts : gmap string value) :
  EvStartProcess b env args opts
    ∈ trace (startTestRunner12 pControl xctestConfigPath bundleID sessionIdentifier
               testBundlePath wdaargs wdaenv) ->
  Forall has_eq wdaenv /\ b = bundleID
  /\ env = fold_left put_entry wdaenv
             (baseline_env testBundlePath xctestConfigPath sessionIdentifier)
  /\ args = runner_args wdaargs /\ opts = runner_opts.
Proof.
  intros Hin.
  destruct (Forall_Exists_dec has_eq (fun e => ~ has_eq e) has_eq_dec wdaenv)
    as [Hall|Hex].
  - rewrite startTestRunner12_ok in Hin by exact Hall. simpl in Hin.
    apply elem_of_app in Hin as [Hin|Hin].
    + apply list_elem_of_fmap in Hin as (e & He & _). discriminate He.
    + apply list_elem_of_singleton in Hin. inversion Hin; subst. auto.
  - destruct (startTestRunner12_panic pControl xctestConfigPath bundleID
                sessionIdentifier testBundlePath wdaargs wdaenv Hex) as [_ Hlogs].
    destruct (Hlogs _ Hin) as (f & a & Hev). discriminate Hev.
Qed.

Lemma runner_args_app (wdaargs : list string) :
  runner_args wdaargs
  = [VString "-NSTreatUnknownArgumentsAsOpen"; VString "NO";
     VString "-ApplePersistenceIgnoreState"; VString "YES"]
    ++ (VString <$> wdaargs).
Proof.
  unfold runner_args. generalize [VString "-NSTreatUnknownArgumentsAsOpen"; VString "NO";
     VString "-ApplePersistenceIgnoreState"; VString "YES"] as acc.
  induction wdaargs as [|a l IH]; intros acc; simpl.
  - now rewrite app_nil_r.
  - rewrite IH, <- app_assoc. reflexivity.
Qed.

Lemma baseline_env_dom (testBundlePath xctestConfigPath sessionIdentifier : string) :
  dom (baseline_env testBundlePath xctestConfigPath sessionIdentifier) = baseline_keys.
Proof.
  unfold baseline_env, baseline_keys. rewrite !dom_insert_L, dom_empty_L.
  set_solver.
Qed.

Lemma extra_env_logs (env : list string) : Forall is_log (extra_env_log <$> env).
Proof. apply Forall_fmap, Forall_forall. intros e _. exact I. Qed.

(** Log lines are invisible to every reading of a trace that skips them. *)
Lemma omap_logs {A} (f : event -> option A) (logs : list event) :
  (forall lvl format args, f (EvLog lvl format args) = None) ->
  Forall is_log logs -> omap f logs = [].
Proof.
  intros Hf. induction 1 as [|ev logs Hev _ IH]; [reflexivity |].
  destruct ev; try contradiction. cbn. now rewrite Hf.
Qed.

(** C7, as stated, fails: with no caller entries the mapping handed to
    [StartProcess] has exactly the ten keys of the literal, none of which
    disables state persistence; that flag travels in the argument slice. *)
Lemma C7_baseline_env_has_no_persistence_entry :
  exists env : gmap string value,
    trace (startTestRunner12 pc_ok "/tmp/Runner.xctestconfiguration"
             "com.app.runner" "3F2504E0" "/app/PlugIns/Runner.xctest" [] [])
    = [EvStartProcess "com.app.runner" env
         [VString "-NSTreatUnknownArgumentsAsOpen"; VString "NO";
          VString "-ApplePersistenceIgnoreState"; VString "YES"]
         runner_opts]
    /\ dom env = baseline_keys
    /\ (forall k, k ∈ dom env -> strings.Contains k "Persistence" = false)
    /\ env !! "ApplePersistenceIgnoreState" = None
    /\ env !! "-ApplePersistenceIgnoreState" = None.
Proof.
  eexists. split; [reflexivity |]. cbn [fold_left].
  rewrite baseline_env_dom. split; [reflexivity |].
  split; [| split; reflexivity].
  intros k Hk. unfold baseline_keys in Hk.
  repeat (apply elem_of_union in Hk as [Hk|Hk]);
    apply elem_of_singleton in Hk; subst k; reflexivity.
Qed.

Lemma plain_variable_entry (variable : string * string) :
  plain_variable variable ->
  has_eq (env_entry variable)
  /\ entry_key (env_entry variable) = variable.1
  /\ entry_value (env_entry variable) = variable.2.
Proof.
  destruct variable as [k v]. intros [Hk Hv]. cbn [fst snd] in *.
  unfold has_eq, entry_key, entry_value, env_entry. cbn [fst snd].
  rewrite (Split_eq_prefix k v Hk), (Split_no_eq v Hv).
  split; [apply Contains_eq_prefix | split; reflexivity].
Qed.

Lemma fold_put_variable (variables : list (string * string)) (env : gmap string value) :
  Forall plain_variable variables ->
  fold_left put_entry (env_entry <$> variables) env
  = fold_left put_variable variables env.
Proof.
  revert env; induction variables as [|kv l IH]; intros env Hall; [reflexivity |].
  apply Forall_cons in Hall as [Hkv Hall]. rewrite fmap_cons. cbn [fold_left].
  rewrite IH by exact Hall. f_equal. unfold put_entry, put_variable.
  destruct (plain_variable_entry kv Hkv) as (_ & -> & ->). reflexivity.
Qed.

(** C7, amended: for every list of variables a caller supplies as entries
    "name=value", with no "=" inside a name or a value, [startTestRunner12]
    calls [StartProcess] once, and the environment mapping it passes is the
    literal baseline (unbuffered I/O, the test bundle path, the
    configuration path, the session identifier and the other diagnostics
    keys) merged with the caller's variables: a key no caller variable names
    keeps its baseline value, and a key a caller variable names holds the
    value of the last such variable, also when the baseline has that key.
    State persistence is switched off in the argument slice, which starts
    with the four fixed flags, and not in the environment. *)
Theorem C7_env_is_baseline_overridden_by_caller (pControl : ProcessControl)
    (xctestConfigPath bundleID sessionIdentifier testBundlePath : string)
    (wdaargs : list string) (variables : list (string * string)) :
  Forall plain_variable variables ->
  let baseline := baseline_env testBundlePath xctestConfigPath sessionIdentifier in
  let env := fold_left put_variable variables ∅ ∪ baseline in
  let args := [VString "-NSTreatUnknownArgumentsAsOpen"; VString "NO";
               VString "-ApplePersistenceIgnoreState"; VString "YES"]
              ++ (VString <$> wdaargs) in
  start_calls (trace (startTestRunner12 pControl xctestConfigPath bundleID
                        sessionIdentifier testBundlePath wdaargs
                        (env_entry <$> variables)))
  = [(bundleID, env, args, runner_opts)]
  /\ dom baseline = baseline_keys
  /\ baseline !! "NSUnbufferedIO" = Some (VString "YES")
  /\ baseline !! "XCTestBundlePath" = Some (VString testBundlePath)
  /\ baseline !! "XCTestConfigurationFilePath" = Some (VString xctestConfigPath)
  /\ baseline !! "XCTestSessionIdentifier" = Some (VString sessionIdentifier)
  /\ (forall k, k ∉ variables.*1 -> env !! k = baseline !! k)
  /\ (forall pre k v post,
        variables = pre ++ (k, v) :: post ->
        k ∉ post.*1 ->
        env !! k = Some (VString v)).
Proof.
  intros Hplain baseline env args.
  assert (Hentries : Forall has_eq (env_entry <$> variables)).
  { apply Forall_fmap. eapply Forall_impl; [exact Hplain |].
    intros kv Hkv. exact (proj1 (plain_variable_entry kv Hkv)). }
  assert (Henv : fold_left put_entry (env_entry <$> variables) baseline = env).
  { rewrite fold_put_entry_union, fold_put_variable by exact Hplain. reflexivity. }
  split.
  { rewrite startTestRunner12_ok by exact Hentries. cbn [trace fst].
    unfold start_calls. rewrite omap_app.
    rewrite (omap_logs _ _ (fun _ _ _ => eq_refl) (extra_env_logs _)).
    cbn [omap list_omap app]. fold baseline. rewrite Henv.
    unfold args. now rewrite runner_args_app. }
  split; [apply baseline_env_dom |].
  do 4 (split; [reflexivity |]).
  split.
  - intros k Hk. rewrite <- Henv. apply fold_put_entry_other.
    intros e He. apply list_elem_of_fmap in He as (kv & -> & Hin).
    rewrite Forall_forall in Hplain.
    destruct (plain_variable_entry kv (Hplain kv Hin)) as (_ & -> & _).
    intros <-. apply Hk. apply list_elem_of_fmap. now exists kv.
  - intros pre k v post -> Hk. rewrite <- Henv.
    rewrite Forall_forall in Hplain.
    assert (Hkv : plain_variable (k, v)).
    { apply Hplain. apply elem_of_app. right. left. }
    destruct (plain_variable_entry (k, v) Hkv) as (_ & Hkey & Hvalue).
    cbn [fst snd] in Hkey, Hvalue.
    pose proof (fold_put_entry_last (env_entry <$> pre) (env_entry <$> post)
                  (env_entry (k, v)) baseline) as Hlast.
    rewrite Hkey, Hvalue in Hlast. rewrite fmap_app, fmap_cons. apply Hlast.
    intros e He. apply list_elem_of_fmap in He as (kv & -> & Hin).
    assert (Hkv' : plain_variable kv).
    { apply Hplain. apply elem_of_app. right. now right. }
    destruct (plain_variable_entry kv Hkv') as (_ & -> & _).
    intros Heq. apply Hk. apply list_elem_of_fmap. now exists kv.
Qed.

Lemma C7_env_is_baseline_overridden_by_caller_witness :
  let env := fold_left put_variable
               [("NSUnbufferedIO", "YES"); ("WDA_PORT", "8100"); ("NSUnbufferedIO", "NO")]
               ∅
             ∪ baseline_env "/app/PlugIns/Runner.xctest" "/tmp/Runner.xctestconfiguration"
                 "3F2504E0" in
  env !! "NSUnbufferedIO" = Some (VString "NO")
  /\ env !! "WDA_PORT" = Some (VString "8100")
  /\ env !! "XCTestSessionIdentifier" = Some (VString "3F2504E0").
Proof.
  intros env.
  destruct (C7_env_is_baseline_overridden_by_caller pc_ok
              "/tmp/Runner.xctestconfiguration" "com.app.runner" "3F2504E0"
              "/app/PlugIns/Runner.xctest" ["-v"]
              [("NSUnbufferedIO", "YES"); ("WDA_PORT", "8100"); ("NSUnbufferedIO", "NO")])
    as (_ & _ & _ & _ & _ & _ & Hother & Hlast).
  - repeat (apply Forall_cons_2; [split; reflexivity |]). apply Forall_nil_2.
  - split; [| split].
    + apply (Hlast [("NSUnbufferedIO", "YES"); ("WDA_PORT", "8100")]
               "NSUnbufferedIO" "NO" []); [reflexivity |].
      intros Hin. apply elem_of_nil in Hin. exact Hin.
    + apply (Hlast [("NSUnbufferedIO", "YES")] "WDA_PORT" "8100"
               [("NSUnbufferedIO", "NO")]); [reflexivity |].
      intros Hin. apply list_elem_of_singleton in Hin. discriminate Hin.
    + unfold env. rewrite Hother; [reflexivity |].
      intros Hin. repeat (apply elem_of_cons in Hin as [Hin | Hin]; [discriminate Hin |]).
      apply elem_of_nil in Hin. exact Hin.
Defined.

(** C8: in every call [startTestRunner12] makes to [StartProcess], whatever
    the caller's arguments and environment, the options mapping holds
    "StartSuspendedKey" = 0 (do not start suspended) and
    "ActivateSuspended" = 1 (activate when started). *)
Theorem C8_options_of_every_StartProcess (pControl : ProcessControl)
    (xctestConfigPath bundleID sessionIdentifier testBundlePath : string)
    (wdaargs wdaenv : list string) (b : string) (env : gmap string value)
    (args : list value) (opts : gmap string value) :
  EvStartProcess b env args opts
    ∈ trace (startTestRunner12 pControl xctestConfigPath bundleID sessionIdentifier
               testBundlePath wdaargs wdaenv) ->
  opts !! "StartSuspendedKey" = Some (VUint64 0)
  /\ opts !! "ActivateSuspended" = Some (VUint64 1).
Proof.
  intros Hin. apply startTestRunner12_call in Hin as (_ & _ & _ & _ & ->).
  split; reflexivity.
Qed.

Lemma C8_options_of_every_StartProcess_witness :
  runner_opts !! "StartSuspendedKey" = Some (VUint64 0)
  /\ runner_opts !! "ActivateSuspended" = Some (VUint64 1).
Proof.
  apply (C8_options_of_every_StartProcess pc_ok "/tmp/Runner.xctestconfiguration"
           "com.app.runner" "3F2504E0" "/app/PlugIns/Runner.xctest"
           ["--flag"] ["StartSuspendedKey=1"] "com.app.runner"
           (fold_left put_entry ["StartSuspendedKey=1"]
              (baseline_env "/app/PlugIns/Runner.xctest"
                 "/tmp/Runner.xctestconfiguration" "3F2504E0"))
           (runner_args ["--flag"]) runner_opts).
  apply list_elem_of_In. simpl. right; left. reflexivity.
Defined.

(** C10: [startTestRunner12] needs every caller-supplied environment entry
    to contain "=". An entry without it splits into the single piece that is
    the entry itself, reading element 1 of that slice panics with index 1
    out of range for length 1, and the function then panics before any
    [StartProcess]; when every entry contains "=", the function does not
    panic and returns what [StartProcess] answers. *)
Theorem C10_entries_need_an_equals_sign (pControl : ProcessControl)
    (xctestConfigPath bundleID sessionIdentifier testBundlePath : string)
    (wdaargs wdaenv : list string) :
  let run := startTestRunner12 pControl xctestConfigPath bundleID sessionIdentifier
               testBundlePath wdaargs wdaenv in
  (forall e, e ∈ wdaenv -> ~ has_eq e ->
     strings.Split e "=" = [e]
     /\ result (index (strings.Split e "=") 1) = Panics (IndexOutOfRange 1 1)
     /\ result run = Panics (IndexOutOfRange 1 1)
     /\ forall b env args opts, EvStartProcess b env args opts ∉ trace run)
  /\ (Forall has_eq wdaenv ->
      exists env, result run = Val (StartProcess pControl bundleID env
                                      (runner_args wdaargs) runner_opts)).
Proof.
  intros run; split.
  - intros e He Hno.
    assert (Hsplit : strings.Split e "=" = [e]).
    { apply Split_no_eq. unfold has_eq in Hno.
      destruct (strings.Contains e "="); congruence. }
    assert (Hex : Exists (fun e => ~ has_eq e) wdaenv).
    { apply Exists_exists. eauto. }
    destruct (startTestRunner12_panic pControl xctestConfigPath bundleID
                sessionIdentifier testBundlePath wdaargs wdaenv Hex) as [Hp Hlogs].
    split; [exact Hsplit |]. split; [rewrite Hsplit; reflexivity |].
    split; [exact Hp |].
    intros b env args opts Hin. destruct (Hlogs _ Hin) as (f & a & Hev).
    discriminate Hev.
  - intros Hall. eexists. unfold run.
    rewrite startTestRunner12_ok by exact Hall. reflexivity.
Qed.

Lemma C10_entries_need_an_equals_sign_witness :
  result (startTestRunner12 pc_ok "/tmp/Runner.xctestconfiguration" "com.app.runner"
            "3F2504E0" "/app/PlugIns/Runner.xctest" [] ["A=1"; "VERBOSE"; "B=2"])
  = Panics (IndexOutOfRange 1 1)
  /\ exists env,
      result (startTestRunner12 pc_ok "/tmp/Runner.xctestconfiguration" "com.app.runner"
                "3F2504E0" "/app/PlugIns/Runner.xctest" [] ["A=1"; "B=2"])
      = Val (StartProcess pc_ok "com.app.runner" env (runner_args []) runner_opts).
Proof.
  split.
  - apply (C10_entries_need_an_equals_sign pc_ok "/tmp/Runner.xctestconfiguration"
             "com.app.runner" "3F2504E0" "/app/PlugIns/Runner.xctest" []
             ["A=1"; "VERBOSE"; "B=2"]) with (e := "VERBOSE").
    + apply list_elem_of_In. simpl. right; left; reflexivity.
    + unfold has_eq. simpl. discriminate.
  - apply (C10_entries_need_an_equals_sign pc_ok "/tmp/Runner.xctestconfiguration"
             "com.app.runner" "3F2504E0" "/app/PlugIns/Runner.xctest" []
             ["A=1"; "B=2"]).
    repeat constructor.
Defined.

(** ** [RunXUITestWithBundleIdsXcode12Ctx] *)

Section Run.

Variable w : World.
Variables bundleID testRunnerBundleID xctestConfigFileName : string.
Variable device : DeviceEntry.
Variables args env : list string.
Variable testListener : TestListener.

Local Abbreviation Run ctx :=
  (RunXUITestWithBundleIdsXcode12Ctx w ctx bundleID testRunnerBundleID
     xctestConfigFileName device args env testListener).
Local Abbreviation early :=
  (early_event w bundleID testRunnerBundleID xctestConfigFileName device).

Lemma start_runner_early (pControl : ProcessControl) :
  Forall early (trace (start_runner w bundleID testRunnerBundleID
                         xctestConfigFileName device args env pControl)).
Proof.
  apply Forall_forall. intros ev Hin. unfold start_runner in Hin.
  match type of Hin with
  | _ ∈ trace (startTestRunner12 ?pc ?cfg ?b ?sid ?tbp ?a ?e) =>
      destruct (Forall_Exists_dec has_eq (fun x => ~ has_eq x) has_eq_dec e)
        as [Hall|Hex];
      [ rewrite (startTestRunner12_ok pc cfg b sid tbp a e Hall) in Hin
      | destruct (startTestRunner12_panic pc cfg b sid tbp a e Hex) as [_ Hlogs] ]
  end.
  - simpl in Hin. apply elem_of_app in Hin as [Hin|Hin].
    + apply list_elem_of_fmap in Hin as (x & -> & _). exact I.
    + apply list_elem_of_singleton in Hin. subst ev. exact I.
  - destruct (Hlogs _ Hin) as (f & a & ->). exact I.
Qed.


(** A run whose runner was launched, written out. *)
Lemma run_launched (pControl : ProcessControl) (pid : Z) (ctx : option Context) :
  runner_launched w bundleID testRunnerBundleID xctestConfigFileName device
    args env pControl pid ->
  let pre := before_test_plan w bundleID testRunnerBundleID xctestConfigFileName
               device args env pControl pid in
  Run ctx
  = match test_plan_answer w with
    | Some err =>
        (pre ++ [EvLog ErrorLevel "" [LError err]] ++ deferred_closes,
         Val (Some (fmt_Errorf
                      "RunXUITestWithBundleIdsXcode12Ctx: cannot authorize test session: "
                      err)))
    | None =>
        let '(tr, o) := wait_for_end ctx pControl pid dispatcher in
        (pre ++ tr ++ match o with Blocks => [] | _ => deferred_closes end, o)
    end.
Proof.
  intros [H1 H2 H3 H4 H5 H6 H7] pre.
  unfold pre, before_test_plan, launch_trace, authorize_trace.
  unfold start_runner, setup in *. unfold test_plan_answer, dispatcher.
  unfold RunXUITestWithBundleIdsXcode12Ctx.
  rewrite H1.
  destruct (setupXcuiTest w device bundleID testRunnerBundleID xctestConfigFileName)
    as [[sid path cfg info] err0]; simpl in H2, H5, H7 |- *; subst err0.
  rewrite H3. fold primary secondary.
  destruct (initiateControlSessionWithCapabilities w primary emptyCaps)
    as [caps err1]; simpl in H4 |- *; subst err1.
  cbn [newDtxProxyWithConfig daemonConnection dtxConnection].
  destruct (initiateSessionWithIdentifierAndCaps w secondary sid localCaps)
    as [caps2 err2]; simpl in H5 |- *; subst err2.
  rewrite H6.
  destruct (startTestRunner12 pControl path testRunnerBundleID (UUID_String sid)
              (testrunnerAppPath info +:+ "/PlugIns/" +:+ xctestConfigFileName)
              args env) as [trs os]; simpl in H7; subst os.
  cbn [bind emit logf ret defer app fst snd trace result id].
  destruct (authorizeTestSessionWithProcessID w primary pid) as [success aerr].
  destruct (startExecutingTestPlanWithProtocolVersion w secondary
              (ForChannelRequest w secondary "emty") 36) as [perr|].
  - cbn. rewrite <- !app_assoc. reflexivity.
  - destruct (wait_for_end ctx pControl pid _) as [tr [r|pn|]]; cbn;
      rewrite <- ?app_assoc; cbn; rewrite <- ?app_assoc, ?app_nil_r; reflexivity.
Qed.

End Run.

(** ** The wait for the end of the session *)

Lemma wait_cancelled (c : Context) (pControl : ProcessControl) (pid : Z)
    (pd : ProxyDispatcher) (t : nat) :
  Done c = ready_at t ->
  wait_for_end (Some c) pControl pid pd
  = let kill := [EvRecv ctx_Done t;
                 EvLog InfoLevel "Killing test runner with pid %d ..." [LUint64 pid];
                 EvKillProcess pid] in
    match KillProcess pControl pid with
    | Some err => (kill, Val (Some (kill_error err)))
    | None => (kill ++ [EvLog InfoLevel "Test runner killed with success" []], Val None)
    end.
Proof.
  intros Hd. unfold wait_for_end, call_KillProcess. rewrite Hd. cbn.
  destruct (KillProcess pControl pid); reflexivity.
Qed.

Lemma wait_for_end_never (ctx : option Context) (pControl : ProcessControl)
    (pid : Z) :
  end_signal ctx = never ->
  wait_for_end ctx pControl pid dispatcher = ([], Blocks).
Proof.
  intros Hend. unfold wait_for_end.
  destruct ctx as [c|]; simpl in Hend |- *; [rewrite Hend |]; reflexivity.
Qed.

Lemma early_quiet (w : World) (bundleID testRunnerBundleID xctestConfigFileName : string)
    (device : DeviceEntry) (tr : list event) :
  Forall (early_event w bundleID testRunnerBundleID xctestConfigFileName device) tr ->
  killed tr = [] /\ received tr = [] /\ Forall (fun ev => ~ is_authorize ev) tr.
Proof.
  induction 1 as [|ev tr Hev _ (IHk & IHr & IHa)]; [repeat split; constructor |].
  destruct ev; try contradiction; cbn; repeat split; auto; constructor; auto.
Qed.

Lemma killed_app (a b : list event) : killed (a ++ b) = killed a ++ killed b.
Proof. apply omap_app. Qed.

Lemma received_app (a b : list event) : received (a ++ b) = received a ++ received b.
Proof. apply omap_app. Qed.

Section Launched_run.

Variable w : World.
Variables bundleID testRunnerBundleID xctestConfigFileName : string.
Variable device : DeviceEntry.
Variables args env : list string.
Variable testListener : TestListener.
Variable pControl : ProcessControl.
Variable pid : Z.

Hypothesis Hlaunched :
  runner_launched w bundleID testRunnerBundleID xctestConfigFileName device
    args env pControl pid.

Local Abbreviation Run ctx :=
  (RunXUITestWithBundleIdsXcode12Ctx w ctx bundleID testRunnerBundleID
     xctestConfigFileName device args env testListener).
Local Abbreviation pre :=
  (before_test_plan w bundleID testRunnerBundleID xctestConfigFileName device
     args env pControl pid).

Lemma launch_trace_early :
  Forall (early_event w bundleID testRunnerBundleID xctestConfigFileName device)
    (launch_trace w bundleID testRunnerBundleID xctestConfigFileName device
       args env pControl).
Proof.
  unfold launch_trace. apply Forall_app; split.
  - repeat (apply Forall_cons; split; [cbn; auto |]). constructor.
  - apply start_runner_early.
Qed.

Lemma pre_quiet : killed pre = [] /\ received pre = [].
Proof.
  destruct (early_quiet _ _ _ _ _ _ launch_trace_early) as (Hk & Hr & _).
  unfold before_test_plan. rewrite killed_app, received_app, Hk, Hr.
  split; reflexivity.
Qed.

(** The run when the test plan started and the supplied context is
    cancelled. *)
Lemma run_executing_signalled (c : Context) (t : nat) :
  test_plan_answer w = None ->
  Done c = ready_at t ->
  let kill := [EvRecv ctx_Done t;
               EvLog InfoLevel "Killing test runner with pid %d ..." [LUint64 pid];
               EvKillProcess pid] in
  Run (Some c)
  = match KillProcess pControl pid with
    | Some err => (pre ++ kill ++ deferred_closes, Val (Some (kill_error err)))
    | None =>
        (pre ++ (kill ++ [EvLog InfoLevel "Test runner killed with success" []])
           ++ deferred_closes, Val None)
    end.
Proof.
  intros Hplan Hdone.
  rewrite (run_launched _ _ _ _ _ _ _ _ _ _ (Some c) Hlaunched), Hplan.
  rewrite (wait_cancelled _ _ _ _ _ Hdone).
  destruct (KillProcess pControl pid); reflexivity.
Qed.

(** The run when the test plan started and the awaited signal never comes:
    with a context supplied, that is the context's signal; without one, the
    receive is from the dispatcher's nil channel. *)
Lemma run_parked (ctx : option Context) :
  test_plan_answer w = None ->
  end_signal ctx = never ->
  Run ctx = (pre, Blocks).
Proof.
  intros Hplan Hend.
  rewrite (run_launched _ _ _ _ _ _ _ _ _ _ ctx Hlaunched), Hplan.
  rewrite (wait_for_end_never ctx pControl pid Hend). cbn. now rewrite app_nil_r.
Qed.

(** The run when the supplied context is cancelled and the kill is
    refused. *)
Lemma run_kill_refused (c : Context) (t : nat) (err : error) :
  test_plan_answer w = None ->
  Done c = ready_at t ->
  KillProcess pControl pid = Some err ->
  result (Run (Some c)) = Val (Some (kill_error err))
  /\ killed (trace (Run (Some c))) = [pid]
  /\ exists before,
      trace (Run (Some c)) = before ++ EvKillProcess pid :: deferred_closes.
Proof.
  intros Hplan Hdone Hkill.
  pose proof (run_executing_signalled c t Hplan Hdone) as Hrun. cbv zeta in Hrun.
  rewrite Hkill in Hrun. rewrite Hrun. cbn [trace result fst snd].
  split; [reflexivity |]. split.
  - rewrite killed_app, (proj1 pre_quiet). reflexivity.
  - exists (pre ++ [EvRecv ctx_Done t;
                    EvLog InfoLevel "Killing test runner with pid %d ..." [LUint64 pid]]).
    rewrite <- app_assoc. reflexivity.
Qed.

(** The run when the start of the test plan is refused. *)
Lemma run_plan_refused (ctx : option Context) (err : error) :
  test_plan_answer w = Some err ->
  Run ctx
  = (pre ++ [EvLog ErrorLevel "" [LError err]] ++ deferred_closes,
     Val (Some (fmt_Errorf
                  "RunXUITestWithBundleIdsXcode12Ctx: cannot authorize test session: "
                  err)))
  /\ killed (trace (Run ctx)) = [].
Proof.
  intros Hplan.
  rewrite (run_launched _ _ _ _ _ _ _ _ _ _ ctx Hlaunched), Hplan.
  split; [reflexivity |]. cbn [trace fst].
  rewrite killed_app, (proj1 pre_quiet). reflexivity.
Qed.

End Launched_run.

Lemma sample_world_launched (sessionId : string) (pControl : ProcessControl)
    (plan : option error) :
  StartProcess pControl = (fun _ _ _ _ => (77, None)) ->
  runner_launched (sample_world sessionId pControl plan) "com.app.under.test"
    "com.app.runner" "Runner.xctest" sample_device [] [] pControl 77.
Proof.
  intros Hstart. constructor; try reflexivity.
  unfold start_runner, startTestRunner12, call_StartProcess. cbn. now rewrite Hstart.
Qed.

(** ** The shapes of a run *)

(** [startTestRunner12] either panics after log lines only, or logs every
    entry and hands [StartProcess]'s answer back. *)
Lemma startTestRunner12_shape (pControl : ProcessControl)
    (xctestConfigPath bundleID sessionIdentifier testBundlePath : string)
    (wdaargs wdaenv : list string) :
  (Exists (fun e => ~ has_eq e) wdaenv
   /\ exists logs, Forall is_log logs
       /\ startTestRunner12 pControl xctestConfigPath bundleID sessionIdentifier
            testBundlePath wdaargs wdaenv
          = (logs, Panics (IndexOutOfRange 1 1)))
  \/ (Forall has_eq wdaenv
      /\ let env := fold_left put_entry wdaenv
                      (baseline_env testBundlePath xctestConfigPath sessionIdentifier) in
         startTestRunner12 pControl xctestConfigPath bundleID sessionIdentifier
           testBundlePath wdaargs wdaenv
         = ((extra_env_log <$> wdaenv)
              ++ [EvStartProcess bundleID env (runner_args wdaargs) runner_opts],
            Val (StartProcess pControl bundleID env (runner_args wdaargs) runner_opts))).
Proof.
  destruct (Forall_Exists_dec has_eq (fun e => ~ has_eq e) has_eq_dec wdaenv)
    as [Hall|Hex].
  - right. split; [exact Hall |]. now apply startTestRunner12_ok.
  - left. split; [exact Hex |].
    destruct (startTestRunner12_panic pControl xctestConfigPath bundleID
                sessionIdentifier testBundlePath wdaargs wdaenv Hex) as [Hp Hlogs].
    destruct (startTestRunner12 pControl xctestConfigPath bundleID sessionIdentifier
                testBundlePath wdaargs wdaenv) as [tr o]; simpl in *. subst o.
    exists tr. split; [| reflexivity].
    apply Forall_forall. intros ev Hev. destruct (Hlogs ev Hev) as (f & a & ->).
    exact I.
Qed.

Section Shapes.

Variable w : World.
Variable ctx : option Context.
Variables bundleID testRunnerBundleID xctestConfigFileName : string.
Variable device : DeviceEntry.
Variables args env : list string.
Variable testListener : TestListener.

Local Abbreviation Run :=
  (RunXUITestWithBundleIdsXcode12Ctx w ctx bundleID testRunnerBundleID
     xctestConfigFileName device args env testListener).
Local Abbreviation shape :=
  (run_shape w ctx bundleID testRunnerBundleID xctestConfigFileName device args env).

Lemma started_trace_launched (pControl : ProcessControl) (pid : Z) :
  runner_launched w bundleID testRunnerBundleID xctestConfigFileName device
    args env pControl pid ->
  before_test_plan w bundleID testRunnerBundleID xctestConfigFileName device
    args env pControl pid
  = started_trace w bundleID testRunnerBundleID xctestConfigFileName device
      args env pid.
Proof.
  intros [_ _ _ _ _ _ Hruns].
  unfold before_test_plan, launch_trace, started_trace, control_events,
    session_events, session_log, runner_call, runner_env.
  unfold start_runner in *.
  match type of Hruns with
  | result (startTestRunner12 ?pc ?cfg ?b ?sid ?tbp ?a ?e) = _ =>
      destruct (startTestRunner12_shape pc cfg b sid tbp a e)
        as [(_ & logs & _ & Heq) | [_ Heq]]; cbv zeta in Heq; rewrite Heq in Hruns |- *
  end.
  - discriminate Hruns.
  - cbn [trace fst]. rewrite <- !app_assoc. reflexivity.
Qed.

Lemma run_has_shape : shape Run.
Proof.
  destruct (NewUsbmuxdConnection w 0 device (testmanagerdiOS14 w)) as [e1|] eqn:H1.
  { unfold RunXUITestWithBundleIdsXcode12Ctx. rewrite H1. now apply shape_dial. }
  destruct (snd (setupXcuiTest w device bundleID testRunnerBundleID
                   xctestConfigFileName)) as [e2|] eqn:H2.
  { pose proof (shape_setup w ctx bundleID testRunnerBundleID xctestConfigFileName
                  device args env e2 H1 H2) as Hs.
    unfold RunXUITestWithBundleIdsXcode12Ctx. rewrite H1.
    destruct (setupXcuiTest w device bundleID testRunnerBundleID xctestConfigFileName)
      as [[sid path cfg info] err0]; simpl in H2; subst err0. exact Hs. }
  destruct (NewUsbmuxdConnection w 1 device (testmanagerdiOS14 w)) as [e3|] eqn:H3.
  { pose proof (shape_dial2 w ctx bundleID testRunnerBundleID xctestConfigFileName
                  device args env e3 H1 H2 H3) as Hs.
    unfold RunXUITestWithBundleIdsXcode12Ctx. rewrite H1.
    destruct (setupXcuiTest w device bundleID testRunnerBundleID xctestConfigFileName)
      as [[sid path cfg info] err0]; simpl in H2; subst err0.
    rewrite H3. exact Hs. }
  destruct (snd (initiateControlSessionWithCapabilities w primary emptyCaps))
    as [e4|] eqn:H4.
  { pose proof (shape_control w ctx bundleID testRunnerBundleID xctestConfigFileName
                  device args env e4 H1 H2 H3 H4) as Hs.
    unfold RunXUITestWithBundleIdsXcode12Ctx. rewrite H1.
    destruct (setupXcuiTest w device bundleID testRunnerBundleID xctestConfigFileName)
      as [[sid path cfg info] err0]; simpl in H2; subst err0.
    rewrite H3. fold primary secondary.
    cbn [newDtxProxyWithConfig daemonConnection dtxConnection].
    destruct (initiateControlSessionWithCapabilities w primary emptyCaps)
      as [caps err1]; simpl in H4; subst err1. exact Hs. }
  destruct (snd (initiateSessionWithIdentifierAndCaps w secondary
                   (testSessionId (setup w bundleID testRunnerBundleID
                                     xctestConfigFileName device)) localCaps))
    as [e5|] eqn:H5.
  { pose proof (shape_session w ctx bundleID testRunnerBundleID xctestConfigFileName
                  device args env e5 H1 H2 H3 H4 H5) as Hs.
    unfold session_events, control_events, setup in *.
    unfold RunXUITestWithBundleIdsXcode12Ctx. rewrite H1.
    destruct (setupXcuiTest w device bundleID testRunnerBundleID xctestConfigFileName)
      as [[sid path cfg info] err0]; simpl in H2, H5, Hs; subst err0.
    rewrite H3. fold primary secondary.
    cbn [newDtxProxyWithConfig daemonConnection dtxConnection].
    destruct (initiateControlSessionWithCapabilities w primary emptyCaps)
      as [caps err1]; simpl in H4, Hs; subst err1.
    destruct (initiateSessionWithIdentifierAndCaps w secondary sid localCaps)
      as [caps2 err2]; simpl in H5; subst err2. exact Hs. }
  destruct (NewProcessControl w device) as [pControl [e6|]] eqn:H6.
  { pose proof (shape_process_control w ctx bundleID testRunnerBundleID
                  xctestConfigFileName device args env pControl e6 H1 H2 H3 H4 H5 H6)
      as Hs.
    unfold session_log, session_events, control_events, setup in *.
    unfold RunXUITestWithBundleIdsXcode12Ctx. rewrite H1.
    destruct (setupXcuiTest w device bundleID testRunnerBundleID xctestConfigFileName)
      as [[sid path cfg info] err0]; simpl in H2, H5, Hs; subst err0.
    rewrite H3. fold primary secondary.
    cbn [newDtxProxyWithConfig daemonConnection dtxConnection].
    destruct (initiateControlSessionWithCapabilities w primary emptyCaps)
      as [caps err1]; simpl in H4, Hs; subst err1.
    destruct (initiateSessionWithIdentifierAndCaps w secondary sid localCaps)
      as [caps2 err2]; simpl in H5, Hs; subst err2.
    rewrite H6. exact Hs. }
  destruct (startTestRunner12_shape pControl
              (xctestConfigPath (setup w bundleID testRunnerBundleID
                                   xctestConfigFileName device))
              testRunnerBundleID
              (UUID_String (testSessionId (setup w bundleID testRunnerBundleID
                                             xctestConfigFileName device)))
              (testrunnerAppPath (testInfo_of (setup w bundleID testRunnerBundleID
                                                 xctestConfigFileName device))
                 +:+ "/PlugIns/" +:+ xctestConfigFileName)
              args env)
    as [(Hex & logs & Hlogs & Hrunner) | [Hall Hrunner]]; cbv zeta in Hrunner.
  { pose proof (shape_runner_panic w ctx bundleID testRunnerBundleID
                  xctestConfigFileName device args env pControl logs
                  H1 H2 H3 H4 H5 H6 Hex Hlogs) as Hs.
    unfold session_log, session_events, control_events, setup in *.
    unfold RunXUITestWithBundleIdsXcode12Ctx. rewrite H1.
    destruct (setupXcuiTest w device bundleID testRunnerBundleID xctestConfigFileName)
      as [[sid path cfg info] err0]; simpl in H2, H5, Hs, Hrunner; subst err0.
    rewrite H3. fold primary secondary.
    cbn [newDtxProxyWithConfig daemonConnection dtxConnection].
    destruct (initiateControlSessionWithCapabilities w primary emptyCaps)
      as [caps err1]; simpl in H4, Hs; subst err1.
    destruct (initiateSessionWithIdentifierAndCaps w secondary sid localCaps)
      as [caps2 err2]; simpl in H5, Hs; subst err2.
    rewrite H6, Hrunner. cbn. rewrite <- !app_assoc. exact Hs. }
  destruct (runner_answer w bundleID testRunnerBundleID xctestConfigFileName device
              args env pControl) as [pid [e7|]] eqn:H7.
  { pose proof (shape_runner_refused w ctx bundleID testRunnerBundleID
                  xctestConfigFileName device args env pControl pid e7
                  H1 H2 H3 H4 H5 H6 Hall H7) as Hs.
    unfold runner_answer, runner_call, runner_env, session_log, session_events,
      control_events, setup in *.
    unfold RunXUITestWithBundleIdsXcode12Ctx. rewrite H1.
    destruct (setupXcuiTest w device bundleID testRunnerBundleID xctestConfigFileName)
      as [[sid path cfg info] err0]; simpl in H2, H5, H7, Hs, Hrunner; subst err0.
    rewrite H3. fold primary secondary.
    cbn [newDtxProxyWithConfig daemonConnection dtxConnection].
    destruct (initiateControlSessionWithCapabilities w primary emptyCaps)
      as [caps err1]; simpl in H4, Hs; subst err1.
    destruct (initiateSessionWithIdentifierAndCaps w secondary sid localCaps)
      as [caps2 err2]; simpl in H5, Hs; subst err2.
    rewrite H6, Hrunner, H7. cbn. rewrite <- !app_assoc. exact Hs. }
  assert (Hl : runner_launched w bundleID testRunnerBundleID xctestConfigFileName
                 device args env pControl pid).
  { constructor; try assumption. unfold start_runner.
    rewrite Hrunner. cbn [result snd]. f_equal. exact H7. }
  rewrite (run_launched w _ _ _ _ _ _ testListener _ _ ctx Hl). cbv zeta.
  rewrite (started_trace_launched pControl pid Hl).
  destruct (test_plan_answer w) as [e8|] eqn:H8.
  { now apply shape_plan_refused with pControl. }
  destruct ctx as [c|] eqn:Hctx.
  - destruct (Done c) as [|t] eqn:Hdone.
    + rewrite (wait_for_end_never (Some c) pControl pid Hdone). rewrite app_nil_r.
      now apply shape_parked with pControl.
    + rewrite (wait_cancelled c pControl pid dispatcher t Hdone). cbv zeta.
      destruct (KillProcess pControl pid) as [e9|] eqn:H9.
      * eapply shape_cancelled_kill_refused; eauto.
      * eapply shape_cancelled; eauto.
  - rewrite (wait_for_end_never None pControl pid eq_refl). rewrite app_nil_r.
    apply shape_parked with pControl; [exact Hl | exact H8 | reflexivity].
Qed.

End Shapes.

(** Brings the trace of a shape to a list of its calls. *)
Ltac read_shape :=
  unfold started_trace, control_events, session_events, session_log,
    connection_closes, deferred_closes, authorize_trace, runner_call, kill_error,
    primary, secondary;
  cbn [trace result fst snd] in *.

Ltac read_omap :=
  rewrite ?omap_app;
  repeat match goal with
    | H : Forall is_log ?logs |- context [omap ?f ?logs] =>
        rewrite (omap_logs f logs (fun _ _ _ => eq_refl) H)
    | |- context [omap ?f (extra_env_log <$> ?env)] =>
        rewrite (omap_logs f (extra_env_log <$> env) (fun _ _ _ => eq_refl)
                   (extra_env_logs env))
    end;
  cbn [omap list_omap app stage].

(** ** The wait, the kill and the return *)

(** C1 (whichever of completion and cancellation fires first ends the run)
    is broken by the code through a missed case: when a context is supplied
    the [select] has the single case [<-ctx.Done()], and the run waits for
    nothing else. On every device where the runner was launched and the test
    plan started, a run with a context ends on the cancellation and on
    nothing else: when the context is never cancelled the run stays parked,
    whatever the device does, having received nothing, killed nothing and
    closed nothing; when it is cancelled at tick [t] the run receives that
    one signal, kills the runner and leaves. *)
Theorem C1_completion_not_awaited_when_context_supplied (w : World)
    (bundleID testRunnerBundleID xctestConfigFileName : string)
    (device : DeviceEntry) (args env : list string) (testListener : TestListener)
    (pControl : ProcessControl) (pid : Z) (ctx : Context) :
  runner_launched w bundleID testRunnerBundleID xctestConfigFileName device
    args env pControl pid ->
  test_plan_answer w = None ->
  let run := RunXUITestWithBundleIdsXcode12Ctx w (Some ctx) bundleID
               testRunnerBundleID xctestConfigFileName device args env testListener in
  match Done ctx with
  | never =>
      result run = Blocks
      /\ received (trace run) = []
      /\ killed (trace run) = []
      /\ closed (trace run) = []
  | ready_at t =>
      result run <> Blocks
      /\ received (trace run) = [(ctx_Done, t)]
      /\ killed (trace run) = [pid]
  end.
Proof.
  intros Hl Hplan run.
  destruct (pre_quiet w bundleID testRunnerBundleID xctestConfigFileName device
              args env pControl pid) as [Hk Hr].
  destruct (Done ctx) as [|t] eqn:Hdone.
  - pose proof (run_parked w _ _ _ _ _ _ testListener _ _ Hl (Some ctx) Hplan Hdone)
      as Hparked.
    fold run in Hparked. rewrite Hparked. cbn [trace result fst snd].
    split; [reflexivity |]. split; [exact Hr |]. split; [exact Hk |].
    rewrite (started_trace_launched w _ _ _ _ _ _ _ _ Hl).
    unfold closed. read_shape. read_omap. reflexivity.
  - pose proof (run_executing_signalled w _ _ _ _ _ _ testListener _ _ Hl ctx t
                  Hplan Hdone) as Hrun.
    cbv zeta in Hrun. fold run in Hrun.
    destruct (KillProcess pControl pid) as [err|]; rewrite Hrun;
      cbn [trace result fst snd]; rewrite !killed_app, !received_app, Hk, Hr;
      (split; [discriminate |]); split; reflexivity.
Qed.

Lemma C1_completion_not_awaited_when_context_supplied_witness :
  result (sample_run (sample_world "3F2504E0" pc_ok None) (Some {| Done := never |}))
  = Blocks.
Proof.
  exact (proj1 (C1_completion_not_awaited_when_context_supplied
                  (sample_world "3F2504E0" pc_ok None) "com.app.under.test"
                  "com.app.runner" "Runner.xctest" sample_device [] []
                  {| listener_no := 0 |} pc_ok 77 {| Done := never |}
                  (sample_world_launched "3F2504E0" pc_ok None eq_refl) eq_refl)).
Defined.

(** C2 (a refused start of the test plan returns an error and the launched
    runner is still killed) is broken by the code through an early return:
    when the start of the test plan is refused the run logs the error and
    returns it wrapped, and the deferred closes run, but [KillProcess] is
    never called although the runner was started. *)
Theorem C2_runner_not_killed_when_test_plan_refused :
  let fault := errors_New "remote fault" in
  let w := sample_world "3F2504E0" pc_ok (Some fault) in
  let run := sample_run w None in
  result run
  = Val (Some (fmt_Errorf
                 "RunXUITestWithBundleIdsXcode12Ctx: cannot authorize test session: "
                 fault))
  /\ started (trace run) = ["com.app.runner"]
  /\ killed (trace run) = []
  /\ exists pre,
      trace run = pre ++ EvLog ErrorLevel "" [LError fault] :: deferred_closes.
Proof.
  intros fault w run.
  assert (Hl : runner_launched w "com.app.under.test" "com.app.runner"
                 "Runner.xctest" sample_device [] [] pc_ok 77)
    by (apply sample_world_launched; reflexivity).
  destruct (run_plan_refused w _ _ _ _ _ _ {| listener_no := 0 |} _ _ Hl None fault
              eq_refl) as [Hrun Hkilled].
  fold (sample_run w None) in Hrun, Hkilled. fold run in Hrun, Hkilled.
  split; [now rewrite Hrun |].
  split; [vm_compute; reflexivity |].
  split; [exact Hkilled |].
  eexists. rewrite Hrun. reflexivity.
Qed.

(** C3, as stated, fails: the cancellation fires at tick 3 while the session
    is executing, the kill of the runner reports an error, and the run
    returns that error instead of nil. *)
Lemma C3_cancellation_with_failing_kill_returns_error :
  let w := sample_world "3F2504E0" pc_kill_fails None in
  let run := sample_run w (Some {| Done := ready_at 3 |}) in
  received (trace run) = [(ctx_Done, 3%nat)]
  /\ killed (trace run) = [77]
  /\ result run = Val (Some (kill_error (errors_New "process not found")))
  /\ result run <> Val None.
Proof.
  intros w run.
  repeat (split; [vm_compute; reflexivity |]). vm_compute. discriminate.
Qed.

(** C3, amended: when the supplied cancellation signal fires while the
    session is executing, the run asks once for the runner to be killed,
    without reading the close channel, and returns nil if that request
    reports no error; if it reports an error the run returns it, wrapped as
    "cannot kill test runner". *)
Theorem C3_cancellation_returns_what_the_kill_reports (w : World)
    (bundleID testRunnerBundleID xctestConfigFileName : string)
    (device : DeviceEntry) (args env : list string) (testListener : TestListener)
    (pControl : ProcessControl) (pid : Z) (ctx : Context) (t : nat) :
  runner_launched w bundleID testRunnerBundleID xctestConfigFileName device
    args env pControl pid ->
  test_plan_answer w = None ->
  Done ctx = ready_at t ->
  let run := RunXUITestWithBundleIdsXcode12Ctx w (Some ctx) bundleID
               testRunnerBundleID xctestConfigFileName device args env testListener in
  result run = Val (match KillProcess pControl pid with
                    | None => None
                    | Some err => Some (kill_error err)
                    end)
  /\ killed (trace run) = [pid]
  /\ received (trace run) = [(ctx_Done, t)].
Proof.
  intros Hl Hplan Hdone run.
  pose proof (run_executing_signalled w _ _ _ _ _ _ testListener _ _ Hl ctx t
                Hplan Hdone) as Hrun.
  cbv zeta in Hrun. fold run in Hrun.
  destruct (pre_quiet w bundleID testRunnerBundleID xctestConfigFileName device
              args env pControl pid) as [Hk Hr].
  destruct (KillProcess pControl pid) as [err|]; rewrite Hrun;
    cbn [trace result fst snd]; rewrite !killed_app, !received_app, Hk, Hr;
    repeat split.
Qed.

Lemma C3_cancellation_returns_what_the_kill_reports_witness :
  result (sample_run (sample_world "3F2504E0" pc_ok None)
            (Some {| Done := ready_at 3 |})) = Val None
  /\ result (sample_run (sample_world "3F2504E0" pc_kill_fails None)
               (Some {| Done := ready_at 3 |}))
     = Val (Some (kill_error (errors_New "process not found"))).
Proof.
  split.
  - apply (C3_cancellation_returns_what_the_kill_reports
             (sample_world "3F2504E0" pc_ok None) "com.app.under.test"
             "com.app.runner" "Runner.xctest" sample_device [] []
             {| listener_no := 0 |} pc_ok 77 {| Done := ready_at 3 |} 3);
      [apply sample_world_launched | |]; reflexivity.
  - apply (C3_cancellation_returns_what_the_kill_reports
             (sample_world "3F2504E0" pc_kill_fails None) "com.app.under.test"
             "com.app.runner" "Runner.xctest" sample_device [] []
             {| listener_no := 0 |} pc_kill_fails 77 {| Done := ready_at 3 |} 3);
      [apply sample_world_launched | |]; reflexivity.
Defined.

(** C4, as stated, fails: the context is cancelled at tick 5 while the
    session is executing, the kill of the runner reports that the process is
    gone, and the run returns that error to the caller; after the kill the
    trace holds the deferred closes only, so nothing was logged about the
    refusal. *)
Lemma C4_failing_kill_is_returned_to_the_caller :
  let w := sample_world "3F2504E0" pc_kill_fails None in
  let run := sample_run w (Some {| Done := ready_at 5 |}) in
  result run = Val (Some (kill_error (errors_New "process not found")))
  /\ result run <> Val None
  /\ exists pre, trace run = pre ++ EvKillProcess 77 :: deferred_closes.
Proof.
  intros w run.
  split; [vm_compute; reflexivity |]. split; [vm_compute; discriminate |].
  apply (run_kill_refused w "com.app.under.test" "com.app.runner" "Runner.xctest"
           sample_device [] [] {| listener_no := 0 |} pc_kill_fails 77
           (sample_world_launched "3F2504E0" pc_kill_fails None eq_refl)
           {| Done := ready_at 5 |} 5
           (errors_New "process not found") eq_refl eq_refl eq_refl).
Qed.

(** C4, amended: when the awaited signal has arrived and [KillProcess]
    reports an error (as it does for a process that is already gone), the
    run returns that error to the caller, wrapped as "cannot kill test
    runner"; it logs nothing about it, and the deferred closes of process
    control and of both connections still run, right after the kill. The
    signal is the cancellation of a supplied context: without a context the
    run waits on the dispatcher's nil channel and never gets to a kill. *)
Theorem C4_kill_error_is_returned_and_closes_still_run (w : World)
    (bundleID testRunnerBundleID xctestConfigFileName : string)
    (device : DeviceEntry) (args env : list string) (testListener : TestListener)
    (pControl : ProcessControl) (pid : Z) (ctx : option Context) (t : nat)
    (err : error) :
  runner_launched w bundleID testRunnerBundleID xctestConfigFileName device
    args env pControl pid ->
  test_plan_answer w = None ->
  end_signal ctx = ready_at t ->
  KillProcess pControl pid = Some err ->
  let run := RunXUITestWithBundleIdsXcode12Ctx w ctx bundleID
               testRunnerBundleID xctestConfigFileName device args env testListener in
  result run = Val (Some (kill_error err))
  /\ killed (trace run) = [pid]
  /\ (exists pre, trace run = pre ++ EvKillProcess pid :: deferred_closes)
  /\ exists c, ctx = Some c /\ Done c = ready_at t.
Proof.
  intros Hl Hplan Hend Hkill run.
  destruct ctx as [c|]; [| discriminate Hend]. cbn [end_signal] in Hend.
  destruct (run_kill_refused w _ _ _ _ _ _ testListener _ _ Hl c t err Hplan Hend Hkill)
    as (Hres & Hkilled & Htrace).
  repeat (split; [assumption |]). now exists c.
Qed.

Lemma C4_kill_error_is_returned_and_closes_still_run_witness :
  result (sample_run (sample_world "3F2504E0" pc_kill_fails None)
            (Some {| Done := ready_at 5 |}))
  = Val (Some (kill_error (errors_New "process not found"))).
Proof.
  apply (C4_kill_error_is_returned_and_closes_still_run
           (sample_world "3F2504E0" pc_kill_fails None)
           "com.app.under.test" "com.app.runner" "Runner.xctest" sample_device [] []
           {| listener_no := 0 |} pc_kill_fails 77 (Some {| Done := ready_at 5 |}) 5
           (errors_New "process not found"));
    [apply sample_world_launched | | |]; reflexivity.
Defined.

(** ** The authorization step *)







(** ** The session identifier *)






(** ** The device-condition table *)

Section Conditions.

Import api.

Lemma EnableDeviceCondition_recorded (ins : Instruments) (c : Context) (st : state)
    (cond : deviceCondition) :
  deviceConditionsMap st !! SerialNumber (device c) = Some cond ->
  fst (EnableDeviceCondition ins c st) = st.
Proof. intros H. unfold EnableDeviceCondition. rewrite H. reflexivity. Qed.

(** What a request to enable does to the table and to the calls. *)
Lemma EnableDeviceCondition_effect (ins : Instruments) (c : Context) (st : state) :
  let st' := fst (EnableDeviceCondition ins c st) in
  (deviceConditionsMap st' = deviceConditionsMap st
   /\ exists more, calls st' = calls st ++ more)
  \/ (exists cond,
        deviceConditionsMap st !! SerialNumber (device c) = None
        /\ deviceConditionsMap st'
           = <[SerialNumber (device c) := cond]> (deviceConditionsMap st)
        /\ StateControl cond = {| addr := constructed st |}
        /\ calls st' = calls st ++ enabling_calls (device c) cond).
Proof.
  unfold EnableDeviceCondition.
  destruct (deviceConditionsMap st !! SerialNumber (device c)) as [cond|] eqn:Hlook.
  { left. split; [reflexivity |]. exists []. now rewrite app_nil_r. }
  destruct (String.eqb (Query c "profileTypeID") "").
  { left. split; [reflexivity |]. exists []. now rewrite app_nil_r. }
  destruct (String.eqb (Query c "profileID") "").
  { left. split; [reflexivity |]. exists []. now rewrite app_nil_r. }
  destruct (NewDeviceStateControl ins (device c)).
  { left. split; [reflexivity |]. exists []. now rewrite app_nil_r. }
  destruct (List ins _) as [profileTypes [err|]].
  { left. cbn. split; [reflexivity |]. eexists. rewrite <- app_assoc. reflexivity. }
  destruct (VerifyProfileAndType ins profileTypes _ _) as [[profileType profile] [err|]].
  { left. cbn. split; [reflexivity |]. eexists. rewrite <- app_assoc. reflexivity. }
  destruct (Enable ins _ profileType profile) as [err|].
  { left. cbn. split; [reflexivity |]. eexists. rewrite <- !app_assoc. reflexivity. }
  right. eexists {| ProfileType_of := profileType; Profile_of := profile;
                    StateControl := {| addr := constructed st |} |}.
  cbn. repeat split. rewrite <- !app_assoc. reflexivity.
Qed.

(** What a request to disable does: it calls [Disable] on the recorded
    instance, with the recorded profile type, and on nothing else. *)
Lemma DisableDeviceCondition_effect (ins : Instruments) (c : Context) (st : state) :
  let st' := fst (DisableDeviceCondition ins c st) in
  match deviceConditionsMap st !! SerialNumber (device c) with
  | None => st' = st
  | Some cond =>
      let err := Disable ins (StateControl cond) (ProfileType_of cond) in
      calls st' = calls st ++ [CallDisable (StateControl cond) (ProfileType_of cond) err]
      /\ deviceConditionsMap st'
         = match err with
           | Some _ => deviceConditionsMap st
           | None => delete (SerialNumber (device c)) (deviceConditionsMap st)
           end
  end.
Proof.
  unfold DisableDeviceCondition.
  destruct (deviceConditionsMap st !! SerialNumber (device c)) as [cond|];
    [| reflexivity].
  destruct (Disable ins (StateControl cond) (ProfileType_of cond)); cbn; auto.
Qed.

Lemma handle_recorded_by_enabler (st : state) (r : request) :
  recorded_by_enabler st -> recorded_by_enabler (handle st r).
Proof.
  intros Inv udid cond Hlook. destruct r as [ins c | ins c]; simpl in Hlook |- *.
  - destruct (EnableDeviceCondition_effect ins c st)
      as [[Hmap [more Hcalls]] | (cond' & Hnone & Hmap & _ & Hcalls)].
    + rewrite Hmap in Hlook. destruct (Inv udid cond Hlook) as (d & b & a & Hd & Hc).
      exists d, b, (a ++ more). split; [exact Hd |].
      rewrite Hcalls, Hc, <- !app_assoc. reflexivity.
    + rewrite Hmap in Hlook.
      destruct (decide (SerialNumber (device c) = udid)) as [Heq|Hne].
      * subst udid. rewrite lookup_insert_eq in Hlook. inversion Hlook; subst cond'.
        exists (device c), (calls st), []. split; [reflexivity |].
        rewrite Hcalls. f_equal.
      * rewrite lookup_insert_ne in Hlook by exact Hne.
        destruct (Inv udid cond Hlook) as (d & b & a & Hd & Hc).
        exists d, b, (a ++ enabling_calls (device c) cond'). split; [exact Hd |].
        rewrite Hcalls, Hc, <- !app_assoc. reflexivity.
  - pose proof (DisableDeviceCondition_effect ins c st) as Heff. cbv zeta in Heff.
    destruct (deviceConditionsMap st !! SerialNumber (device c)) as [cond0|] eqn:H0.
    + destruct Heff as [Hcalls Hmap].
      assert (Hold : deviceConditionsMap st !! udid = Some cond).
      { rewrite Hmap in Hlook.
        destruct (Disable ins (StateControl cond0) (ProfileType_of cond0));
          [exact Hlook |].
        apply lookup_delete_Some in Hlook. tauto. }
      destruct (Inv udid cond Hold) as (d & b & a & Hd & Hc).
      exists d, b, (a ++ [CallDisable (StateControl cond0) (ProfileType_of cond0)
                            (Disable ins (StateControl cond0) (ProfileType_of cond0))]).
      split; [exact Hd |]. rewrite Hcalls, Hc, <- !app_assoc. reflexivity.
    + rewrite Heff in Hlook |- *. exact (Inv udid cond Hlook).
Qed.

Lemma serve_recorded_by_enabler (requests : list request) :
  recorded_by_enabler (serve requests).
Proof.
  unfold serve.
  assert (H : forall st, recorded_by_enabler st ->
                         recorded_by_enabler (fold_left handle requests st)).
  { induction requests as [|r rs IH]; intros st Hst; [exact Hst |].
    simpl. apply IH. now apply handle_recorded_by_enabler. }
  apply H. intros udid cond Hlook. cbn in Hlook. rewrite lookup_empty in Hlook.
  discriminate.
Qed.

(** Instances are told apart by their address: the n-th instance
    constructed has address n, so no two instances share one. *)
Lemma handle_constructed_instances (st : state) (r : request) :
  constructed_instances (calls st) = seq 0 (constructed st) ->
  constructed_instances (calls (handle st r)) = seq 0 (constructed (handle st r)).
Proof.
  intros Inv. destruct r as [ins c | ins c]; simpl.
  - unfold EnableDeviceCondition.
    destruct (deviceConditionsMap st !! SerialNumber (device c)); [exact Inv |].
    destruct (String.eqb (Query c "profileTypeID") ""); [exact Inv |].
    destruct (String.eqb (Query c "profileID") ""); [exact Inv |].
    destruct (NewDeviceStateControl ins (device c)); [exact Inv |].
    assert (Hnew : constructed_instances
                     (calls st ++ [CallNew (device c) {| addr := constructed st |}])
                   = seq 0 (S (constructed st))).
    { unfold constructed_instances in *. rewrite omap_app, Inv, seq_S. reflexivity. }
    assert (Hother : forall l k,
               match k with CallNew _ _ => False | _ => True end ->
               constructed_instances (l ++ [k]) = constructed_instances l).
    { intros l k Hk. unfold constructed_instances. rewrite omap_app.
      destruct k; try contradiction; cbn; apply app_nil_r. }
    destruct (List ins _) as [profileTypes [err|]].
    { cbn [fst calls constructed record_call]. now rewrite Hother. }
    destruct (VerifyProfileAndType ins profileTypes _ _) as [[profileType profile] [err|]].
    { cbn [fst calls constructed record_call]. now rewrite Hother. }
    destruct (Enable ins _ profileType profile) as [err|];
      cbn [fst calls constructed record_call]; rewrite !Hother by exact I; exact Hnew.
  - unfold DisableDeviceCondition.
    destruct (deviceConditionsMap st !! SerialNumber (device c)) as [cond|];
      [| exact Inv].
    assert (Hdis : forall err,
               constructed_instances
                 (calls st ++ [CallDisable (StateControl cond) (ProfileType_of cond) err])
               = constructed_instances (calls st)).
    { intros err. unfold constructed_instances. rewrite omap_app. cbn. apply app_nil_r. }
    destruct (Disable ins (StateControl cond) (ProfileType_of cond));
      cbn [fst calls constructed record_call]; now rewrite Hdis.
Qed.

Lemma serve_instances_distinct (requests : list request) :
  NoDup (constructed_instances (calls (serve requests))).
Proof.
  assert (H : forall st,
             constructed_instances (calls st) = seq 0 (constructed st) ->
             constructed_instances (calls (fold_left handle requests st))
             = seq 0 (constructed (fold_left handle requests st))).
  { induction requests as [|r rs IH]; intros st Hst; [exact Hst |].
    simpl. apply IH. now apply handle_constructed_instances. }
  unfold serve. rewrite H by reflexivity. apply NoDup_seq.
Qed.

Lemma filter_none {A} (P : A -> Prop) `{forall x, Decision (P x)} (l : list A) :
  (forall x, x ∈ l -> ~ P x) -> filter P l = [].
Proof.
  induction l as [|a l IH]; intros Hno; [reflexivity |].
  rewrite filter_cons. destruct (decide (P a)) as [Hp|_].
  - exfalso. apply (Hno a); [left | exact Hp].
  - apply IH. intros x Hx. apply Hno. now right.
Qed.

Lemma at_most_one_per_key {V} (l : list (string * V)) (k : string) :
  NoDup l.*1 -> (length (filter (fun kv => kv.1 = k) l) <= 1)%nat.
Proof.
  induction l as [|[k' v] l IH]; intros Hnd; [simpl; lia |].
  apply NoDup_cons in Hnd as [Hnotin Hnd]. rewrite filter_cons. simpl in *.
  destruct (decide (k' = k)) as [->|Hne]; [| now apply IH].
  assert (Hnil : filter (fun kv : string * V => kv.1 = k) l = []).
  { apply filter_none. intros [k2 v2] Hin Hk. simpl in Hk. subst k2.
    apply Hnotin. apply list_elem_of_fmap. exists (k, v2). auto. }
  rewrite Hnil. simpl. lia.
Qed.

End Conditions.

(** C9: in every state the two handlers can reach from the empty table, and
    for every device identifier: the table holds at most one condition for
    it; a request to enable while one is recorded leaves the whole state as
    it is; a recorded condition was enabled, for that device, by the very
    instance recorded with it (constructed, listed and enabled without
    error, in that order); and a request to disable invokes [Disable] on
    exactly that instance with the recorded profile type, and makes no
    other call. *)
Theorem C9_condition_is_disabled_by_the_instance_that_enabled_it
    (requests : list api.request) (udid : string) :
  let st := api.serve requests in
  (length (filter (fun kv => kv.1 = udid) (map_to_list (api.deviceConditionsMap st)))
   <= 1)%nat
  /\ (forall ins c cond,
        SerialNumber (api.device c) = udid ->
        api.deviceConditionsMap st !! udid = Some cond ->
        fst (api.EnableDeviceCondition ins c st) = st)
  /\ (forall cond,
        api.deviceConditionsMap st !! udid = Some cond ->
        (exists device before after,
            SerialNumber device = udid
            /\ api.calls st = before ++ api.enabling_calls device cond ++ after)
        /\ forall ins c,
            SerialNumber (api.device c) = udid ->
            api.calls (fst (api.DisableDeviceCondition ins c st))
            = api.calls st
              ++ [api.CallDisable (api.StateControl cond) (api.ProfileType_of cond)
                    (api.Disable ins (api.StateControl cond) (api.ProfileType_of cond))]).
Proof.
  intros st. split; [| split].
  - apply at_most_one_per_key, NoDup_fst_map_to_list.
  - intros ins c cond <- Hlook. now apply EnableDeviceCondition_recorded with cond.
  - intros cond Hlook. split.
    + exact (serve_recorded_by_enabler requests udid cond Hlook).
    + intros ins c <-.
      pose proof (DisableDeviceCondition_effect ins c st) as Heff. cbv zeta in Heff.
      rewrite Hlook in Heff. exact (proj1 Heff).
Qed.

Lemma C9_condition_is_disabled_by_the_instance_that_enabled_it_witness :
  api.calls
    (fst (api.DisableDeviceCondition api.sample_instruments
            (api.sample_request "udid-2")
            (api.serve
               [api.PutEnableCondition api.sample_instruments
                  (api.sample_request "udid-1");
                api.PutEnableCondition api.sample_instruments
                  (api.sample_request "udid-2");
                api.PutEnableCondition api.sample_instruments
                  (api.sample_request "udid-1")])))
  = api.calls
      (api.serve
         [api.PutEnableCondition api.sample_instruments (api.sample_request "udid-1");
          api.PutEnableCondition api.sample_instruments (api.sample_request "udid-2");
          api.PutEnableCondition api.sample_instruments (api.sample_request "udid-1")])
    ++ [api.CallDisable {| api.addr := 1 |} api.slow_network None].
Proof.
  destruct (C9_condition_is_disabled_by_the_instance_that_enabled_it
              [api.PutEnableCondition api.sample_instruments
                 (api.sample_request "udid-1");
               api.PutEnableCondition api.sample_instruments
                 (api.sample_request "udid-2");
               api.PutEnableCondition api.sample_instruments
                 (api.sample_request "udid-1")] "udid-2") as (_ & _ & H).
  destruct (H {| api.ProfileType_of := api.slow_network;
                 api.Profile_of := {| api.Profile_Identifier := "SlowNetwork100PctLoss" |};
                 api.StateControl := {| api.addr := 1 |} |}) as [_ Hdisable].
  - vm_compute. reflexivity.
  - exact (Hdisable api.sample_instruments (api.sample_request "udid-2") eq_refl).
Defined.

(** * Further properties *)

(** ** What a run returns *)



(** ** The order of the calls *)

(** X2: in every run the calls other than log lines are made in pipeline
    order, each at most once: control session, named session, start of the
    runner, channel request, sleep, authorization, start of the test plan,
    receive, kill, and last the closes of process control, of the secondary
    and of the primary connection. *)
Theorem X2_calls_follow_the_pipeline (w : World) (ctx : option Context)
    (bundleID testRunnerBundleID xctestConfigFileName : string)
    (device : DeviceEntry) (args env : list string) (testListener : TestListener) :
  StronglySorted lt
    (stages (trace (RunXUITestWithBundleIdsXcode12Ctx w ctx bundleID
                      testRunnerBundleID xctestConfigFileName device args env
                      testListener))).
Proof.
  destruct (run_has_shape w ctx bundleID testRunnerBundleID xctestConfigFileName
              device args env testListener);
    read_shape; unfold stages; read_omap;
    repeat (apply SSorted_cons; [| repeat (apply Forall_cons_2; [lia |]); apply Forall_nil_2]);
    apply SSorted_nil.
Qed.

(** ** The kill of the runner *)

Lemma launched_facts (w : World)
    (bundleID testRunnerBundleID xctestConfigFileName : string)
    (device : DeviceEntry) (args env : list string)
    (pControl : ProcessControl) (pid : Z) :
  runner_launched w bundleID testRunnerBundleID xctestConfigFileName device
    args env pControl pid ->
  NewUsbmuxdConnection w 0 device (testmanagerdiOS14 w) = None
  /\ snd (setupXcuiTest w device bundleID testRunnerBundleID xctestConfigFileName) = None
  /\ NewUsbmuxdConnection w 1 device (testmanagerdiOS14 w) = None
  /\ snd (initiateControlSessionWithCapabilities w primary emptyCaps) = None
  /\ snd (initiateSessionWithIdentifierAndCaps w secondary
            (testSessionId (setup w bundleID testRunnerBundleID xctestConfigFileName
                              device)) localCaps) = None
  /\ NewProcessControl w device = (pControl, None)
  /\ Forall has_eq env
  /\ runner_answer w bundleID testRunnerBundleID xctestConfigFileName device
       args env pControl = (pid, None).
Proof.
  intros [H1 H2 H3 H4 H5 H6 H7]. repeat (split; [assumption |]).
  unfold start_runner in H7.
  match type of H7 with
  | result (startTestRunner12 ?pc ?cfg ?b ?sid ?tbp ?a ?e) = _ =>
      destruct (startTestRunner12_shape pc cfg b sid tbp a e)
        as [(_ & logs & _ & Heq) | [Hall Heq]]; cbv zeta in Heq; rewrite Heq in H7
  end; [discriminate H7 |].
  split; [exact Hall |]. cbn in H7. now injection H7.
Qed.

Lemma not_all_and_some (env : list string) :
  Forall has_eq env -> Exists (fun e => ~ has_eq e) env -> False.
Proof.
  intros Hall Hex. apply Exists_exists in Hex as (e & Hin & Hno).
  rewrite Forall_forall in Hall. exact (Hno (Hall e Hin)).
Qed.

Lemma launched_unique (w : World)
    (bundleID testRunnerBundleID xctestConfigFileName : string)
    (device : DeviceEntry) (args env : list string)
    (pControl pControl' : ProcessControl) (pid pid' : Z) :
  runner_launched w bundleID testRunnerBundleID xctestConfigFileName device
    args env pControl pid ->
  runner_launched w bundleID testRunnerBundleID xctestConfigFileName device
    args env pControl' pid' ->
  pControl = pControl' /\ pid = pid'.
Proof.
  intros [_ _ _ _ _ H6 H7] [_ _ _ _ _ H6' H7'].
  assert (pControl = pControl') as <- by congruence.
  split; [reflexivity |]. congruence.
Qed.

(** Uses what is known of a launched run against the case at hand. *)
Ltac against_launched Hl :=
  apply launched_facts in Hl;
  destruct Hl as (? & ? & ? & ? & ? & ? & ? & ?);
  first [ congruence
        | exfalso; eapply not_all_and_some; eassumption ].

(** X3: a run kills at most once, and it kills process [pid] exactly when
    the runner was launched with that [pid], the test plan started, and the
    awaited signal (the context's, or without a context that of the
    dispatcher's close channel, which is nil) arrived. *)
Theorem X3_kill_once_and_only_the_launched_runner (w : World) (ctx : option Context)
    (bundleID testRunnerBundleID xctestConfigFileName : string)
    (device : DeviceEntry) (args env : list string) (testListener : TestListener) :
  let tr := trace (RunXUITestWithBundleIdsXcode12Ctx w ctx bundleID
                     testRunnerBundleID xctestConfigFileName device args env
                     testListener) in
  (length (killed tr) <= 1)%nat
  /\ forall pid,
      pid ∈ killed tr
      <-> exists pControl t,
          runner_launched w bundleID testRunnerBundleID xctestConfigFileName
            device args env pControl pid
          /\ test_plan_answer w = None
          /\ end_signal ctx = ready_at t.
Proof.
  intros tr. subst tr.
  destruct (run_has_shape w ctx bundleID testRunnerBundleID xctestConfigFileName
              device args env testListener);
    read_shape; unfold killed; read_omap; cbn [length];
    (split; [lia |]); intros pid'; split.
  all: try (intros Hin; inversion Hin; fail).
  all: try (intros (pc' & t'' & Hl' & Hplan' & Hend');
            first [ congruence | against_launched Hl' ]; fail).
  all: try (intros (pc' & t'' & Hl' & _ & _);
            destruct (launched_unique _ _ _ _ _ _ _ _ _ _ _ Hl' H) as [_ ->];
            apply list_elem_of_here).
  all: intros Hin; apply list_elem_of_singleton in Hin; subst pid';
    subst; cbn [end_signal]; eauto 6.
Qed.

Lemma X3_kill_once_and_only_the_launched_runner_witness :
  77 ∈ killed (trace (sample_run (sample_world "3F2504E0" pc_ok None)
                        (Some {| Done := ready_at 3 |}))).
Proof.
  apply (X3_kill_once_and_only_the_launched_runner
           (sample_world "3F2504E0" pc_ok None)
           (Some {| Done := ready_at 3 |}) "com.app.under.test" "com.app.runner"
           "Runner.xctest" sample_device [] [] {| listener_no := 0 |}).
  exists pc_ok, 3%nat. split; [apply sample_world_launched; reflexivity |].
  split; reflexivity.
Defined.

(** ** What a run closes *)

(** X4: a run that stays parked closes nothing. A run that returns or
    panics closes exactly what it had deferred, latest first: nothing when
    the first dial or the setup failed (so after a failed setup the first
    connection stays open); the primary connection when the second dial
    failed; both connections when a negotiation or the connection to
    process control failed; process control and both connections once
    process control is connected. *)
Theorem X4_closes_match_the_progress (w : World) (ctx : option Context)
    (bundleID testRunnerBundleID xctestConfigFileName : string)
    (device : DeviceEntry) (args env : list string) (testListener : TestListener) :
  let run := RunXUITestWithBundleIdsXcode12Ctx w ctx bundleID testRunnerBundleID
               xctestConfigFileName device args env testListener in
  let dial1 := NewUsbmuxdConnection w 0 device (testmanagerdiOS14 w) in
  let set_up := snd (setupXcuiTest w device bundleID testRunnerBundleID
                       xctestConfigFileName) in
  let dial2 := NewUsbmuxdConnection w 1 device (testmanagerdiOS14 w) in
  let negotiated :=
    snd (initiateControlSessionWithCapabilities w primary emptyCaps) = None
    /\ snd (initiateSessionWithIdentifierAndCaps w secondary
              (testSessionId (fst (setupXcuiTest w device bundleID testRunnerBundleID
                                     xctestConfigFileName))) localCaps) = None
    /\ snd (NewProcessControl w device) = None in
  (result run = Blocks -> closed (trace run) = [])
  /\ (result run <> Blocks ->
      (closed (trace run) = [] /\ (dial1 <> None \/ set_up <> None))
      \/ (closed (trace run) = [ResConn primary]
          /\ dial1 = None /\ set_up = None /\ dial2 <> None)
      \/ (closed (trace run) = [ResConn secondary; ResConn primary]
          /\ dial1 = None /\ set_up = None /\ dial2 = None /\ ~ negotiated)
      \/ (closed (trace run) = [ResProcessControl; ResConn secondary; ResConn primary]
          /\ dial1 = None /\ set_up = None /\ dial2 = None /\ negotiated)).
Proof.
  intros run dial1 set_up dial2 negotiated.
  subst run dial1 set_up dial2 negotiated.
  destruct (run_has_shape w ctx bundleID testRunnerBundleID xctestConfigFileName
              device args env testListener) as
    [ e H1 | e H1 H2 | e H1 H2 H3 | e H1 H2 H3 H4 | e H1 H2 H3 H4 H5
    | pc e H1 H2 H3 H4 H5 H6 | pc logs H1 H2 H3 H4 H5 H6 Hex Hlogs
    | pc pid e H1 H2 H3 H4 H5 H6 Hall H7
    | pc pid e Hl Hplan | pc pid Hl Hplan Hend
    | pc pid c t e Hl Hplan Hctx Hdone Hkill
    | pc pid c t Hl Hplan Hctx Hdone Hkill ];
    try (apply launched_facts in Hl;
         destruct Hl as (H1 & H2 & H3 & H4 & H5 & H6 & _ & _));
    read_shape; unfold closed; read_omap; fold primary secondary;
    (split; [intros Hb; first [discriminate Hb | reflexivity] |]); intros Hnb;
    try (exfalso; apply Hnb; reflexivity);
    try (right; right; right; unfold setup in H5; rewrite H6;
         repeat split; assumption).
  - left. split; [reflexivity |]. left. congruence.
  - left. split; [reflexivity |]. right. congruence.
  - right; left. repeat split; congruence.
  - right; right; left. repeat split; try congruence.
    intros (Hc & _ & _). congruence.
  - right; right; left. repeat split; try congruence.
    intros (_ & Hs & _). unfold setup in H5. congruence.
  - right; right; left. repeat split; try congruence.
    intros (_ & _ & Hp). rewrite H6 in Hp. discriminate Hp.
Qed.

(** ** A panic inside the start of the runner *)

(** X5: when everything up to the connection to process control succeeded
    and some caller-supplied environment entry has no "=", the run panics
    with index 1 out of range for length 1: both negotiations were made, the
    runner was never started, nothing is killed, and the three deferred
    closes still run. *)
Theorem X5_malformed_entry_panics_after_the_handshake (w : World)
    (ctx : option Context) (bundleID testRunnerBundleID xctestConfigFileName : string)
    (device : DeviceEntry) (args env : list string) (testListener : TestListener)
    (pControl : ProcessControl) (entry : string) :
  NewUsbmuxdConnection w 0 device (testmanagerdiOS14 w) = None ->
  snd (setupXcuiTest w device bundleID testRunnerBundleID xctestConfigFileName) = None ->
  NewUsbmuxdConnection w 1 device (testmanagerdiOS14 w) = None ->
  snd (initiateControlSessionWithCapabilities w primary emptyCaps) = None ->
  snd (initiateSessionWithIdentifierAndCaps w secondary
         (testSessionId (fst (setupXcuiTest w device bundleID testRunnerBundleID
                                xctestConfigFileName))) localCaps) = None ->
  NewProcessControl w device = (pControl, None) ->
  entry ∈ env -> ~ has_eq entry ->
  let run := RunXUITestWithBundleIdsXcode12Ctx w ctx bundleID testRunnerBundleID
               xctestConfigFileName device args env testListener in
  result run = Panics (IndexOutOfRange 1 1)
  /\ session_tokens (trace run)
     = [(secondary, testSessionId (fst (setupXcuiTest w device bundleID
                                          testRunnerBundleID xctestConfigFileName)))]
  /\ start_calls (trace run) = []
  /\ killed (trace run) = []
  /\ closed (trace run) = [ResProcessControl; ResConn secondary; ResConn primary].
Proof.
  intros G1 G2 G3 G4 G5 G6 Hin Hno run. subst run.
  assert (Hex : Exists (fun e => ~ has_eq e) env) by (apply Exists_exists; eauto).
  destruct (run_has_shape w ctx bundleID testRunnerBundleID xctestConfigFileName
              device args env testListener) as
    [ e H1 | e H1 H2 | e H1 H2 H3 | e H1 H2 H3 H4 | e H1 H2 H3 H4 H5
    | pc e H1 H2 H3 H4 H5 H6 | pc logs H1 H2 H3 H4 H5 H6 _ Hlogs
    | pc pid e H1 H2 H3 H4 H5 H6 Hall H7
    | pc pid e Hl Hplan | pc pid Hl Hplan Hend
    | pc pid c t e Hl Hplan Hctx Hdone Hkill
    | pc pid c t Hl Hplan Hctx Hdone Hkill ];
    try (unfold setup in *; congruence);
    try (exfalso; eapply not_all_and_some; eassumption);
    try (against_launched Hl).
  read_shape. unfold session_tokens, start_calls, killed, closed. read_omap.
  repeat split.
Qed.

Lemma X5_malformed_entry_panics_after_the_handshake_witness :
  result (RunXUITestWithBundleIdsXcode12Ctx
            (sample_world "3F2504E0" pc_ok None) None
            "com.app.under.test" "com.app.runner" "Runner.xctest" sample_device
            [] ["USE_PORT=8100"; "VERBOSE"] {| listener_no := 0 |})
  = Panics (IndexOutOfRange 1 1).
Proof.
  apply (X5_malformed_entry_panics_after_the_handshake
           (sample_world "3F2504E0" pc_ok None) None
           "com.app.under.test" "com.app.runner" "Runner.xctest" sample_device
           [] ["USE_PORT=8100"; "VERBOSE"] {| listener_no := 0 |} pc_ok "VERBOSE");
    try reflexivity.
  - apply list_elem_of_In. simpl. right; left; reflexivity.
  - unfold has_eq. simpl. discriminate.
Defined.

(** ** A run without a context *)

(** X6: a run without a context never returns nil, never kills the runner
    and never receives from a channel: once the test plan has started it
    waits on the dispatcher's close channel, which the literal
    [ProxyDispatcher{id: "emty"}] leaves nil, so it stays parked with
    nothing closed. Such a run ends only with an error or a panic. *)
Theorem X6_without_a_context_the_run_never_completes (w : World)
    (bundleID testRunnerBundleID xctestConfigFileName : string)
    (device : DeviceEntry) (args env : list string) (testListener : TestListener) :
  let run := RunXUITestWithBundleIdsXcode12Ctx w None bundleID testRunnerBundleID
               xctestConfigFileName device args env testListener in
  result run <> Val None
  /\ killed (trace run) = []
  /\ received (trace run) = []
  /\ forall pControl pid,
      runner_launched w bundleID testRunnerBundleID xctestConfigFileName device
        args env pControl pid ->
      test_plan_answer w = None ->
      result run = Blocks /\ closed (trace run) = [].
Proof.
  intros run. subst run.
  destruct (run_has_shape w None bundleID testRunnerBundleID xctestConfigFileName
              device args env testListener) as
    [ e H1 | e H1 H2 | e H1 H2 H3 | e H1 H2 H3 H4 | e H1 H2 H3 H4 H5
    | pc e H1 H2 H3 H4 H5 H6 | pc logs H1 H2 H3 H4 H5 H6 Hex Hlogs
    | pc pid0 e H1 H2 H3 H4 H5 H6 Hall H7
    | pc pid0 e Hl Hplan | pc pid0 Hl Hplan Hend
    | pc pid0 c t0 e Hl Hplan Hctx Hdone Hkill
    | pc pid0 c t0 Hl Hplan Hctx Hdone Hkill ];
    try discriminate Hctx;
    read_shape; unfold killed, received, closed; read_omap;
    (split; [discriminate |]); (split; [reflexivity |]); (split; [reflexivity |]);
    intros pc' pid' Hl' Hplan';
    first [ split; reflexivity | congruence | against_launched Hl' ].
Qed.

(** ** The runner and the session it belongs to *)

(** X7: whenever a run starts a process, it does so once, after announcing
    the session on the secondary connection; the process is the test runner
    (not the app under test), its arguments are the fixed flags followed by
    the caller's, and, unless a caller entry names the key, its environment
    carries the announced session identifier, the configuration path
    returned by the setup, and the bundle path made of the runner's app
    path, "/PlugIns/" and the configuration file name. *)
Theorem X7_runner_is_started_for_the_announced_session (w : World)
    (ctx : option Context) (bundleID testRunnerBundleID xctestConfigFileName : string)
    (device : DeviceEntry) (args env : list string) (testListener : TestListener)
    (b : string) (env' : gmap string value) (args' : list value)
    (opts : gmap string value) :
  let run := RunXUITestWithBundleIdsXcode12Ctx w ctx bundleID testRunnerBundleID
               xctestConfigFileName device args env testListener in
  let set_up := fst (setupXcuiTest w device bundleID testRunnerBundleID
                       xctestConfigFileName) in
  (b, env', args', opts) ∈ start_calls (trace run) ->
  start_calls (trace run) = [(b, env', args', opts)]
  /\ session_tokens (trace run) = [(secondary, testSessionId set_up)]
  /\ b = testRunnerBundleID
  /\ args' = runner_args args
  /\ (forall key default,
        (key, default) ∈
          [("XCTestSessionIdentifier", UUID_String (testSessionId set_up));
           ("XCTestConfigurationFilePath", xctestConfigPath set_up);
           ("XCTestBundlePath",
            testrunnerAppPath (testInfo_of set_up) +:+ "/PlugIns/"
              +:+ xctestConfigFileName)] ->
        (forall e, e ∈ env -> entry_key e <> key) ->
        env' !! key = Some (VString default)).
Proof.
  intros run set_up Hin. subst run set_up.
  assert (Hkeys : forall key default,
             (key, default) ∈
               [("XCTestSessionIdentifier",
                 UUID_String (testSessionId (fst (setupXcuiTest w device bundleID
                                                    testRunnerBundleID
                                                    xctestConfigFileName))));
                ("XCTestConfigurationFilePath",
                 xctestConfigPath (fst (setupXcuiTest w device bundleID
                                          testRunnerBundleID xctestConfigFileName)));
                ("XCTestBundlePath",
                 testrunnerAppPath (testInfo_of (fst (setupXcuiTest w device bundleID
                                                        testRunnerBundleID
                                                        xctestConfigFileName)))
                   +:+ "/PlugIns/" +:+ xctestConfigFileName)] ->
             (forall e, e ∈ env -> entry_key e <> key) ->
             runner_env w bundleID testRunnerBundleID xctestConfigFileName device env
               !! key = Some (VString default)).
  { intros key default Hkey Hfree. unfold runner_env.
    rewrite fold_put_entry_other by exact Hfree.
    repeat (apply elem_of_cons in Hkey as [Hkey | Hkey];
            [injection Hkey as -> ->; reflexivity |]).
    inversion Hkey. }
  destruct (run_has_shape w ctx bundleID testRunnerBundleID xctestConfigFileName
              device args env testListener);
    revert Hin; read_shape; unfold start_calls, session_tokens;
    read_omap; intros Hin;
    try (inversion Hin; fail);
    apply list_elem_of_singleton in Hin; injection Hin as -> -> -> ->;
    (split; [reflexivity |]); (split; [reflexivity |]);
    (split; [reflexivity |]); (split; [reflexivity |]); exact Hkeys.
Qed.

Lemma X7_runner_is_started_for_the_announced_session_witness :
  session_tokens (trace (sample_run (sample_world "3F2504E0" pc_ok None)
                           None))
  = [(secondary, {| UUID_String := "3F2504E0" |})].
Proof.
  destruct (X7_runner_is_started_for_the_announced_session
              (sample_world "3F2504E0" pc_ok None) None
              "com.app.under.test" "com.app.runner" "Runner.xctest" sample_device
              [] [] {| listener_no := 0 |} "com.app.runner"
              (baseline_env "/app/PlugIns/Runner.xctest"
                 "/tmp/Runner.xctestconfiguration" "3F2504E0")
              (runner_args []) runner_opts) as (_ & Htokens & _).
  - apply list_elem_of_In.
    cbn -[baseline_env runner_args runner_opts localCaps emptyCaps].
    left. reflexivity.
  - exact Htokens.
Defined.

(** ** The environment of the runner, continued *)

Lemma fold_put_entry_dom (wdaenv : list string) (env : gmap string value) :
  dom (fold_left put_entry wdaenv env) = dom env ∪ list_to_set (entry_key <$> wdaenv).
Proof.
  revert env; induction wdaenv as [|e l IH]; intros env; simpl.
  - now rewrite (right_id_L ∅ (∪)).
  - rewrite IH. unfold put_entry. rewrite dom_insert_L.
    rewrite (assoc_L (∪)). f_equal. apply (comm_L (∪)).
Qed.

Lemma fold_put_entry_size (wdaenv : list string) (env : gmap string value) :
  (size (fold_left put_entry wdaenv env) <= size env + length wdaenv)%nat.
Proof.
  revert env; induction wdaenv as [|e l IH]; intros env; simpl; [lia |].
  etransitivity; [apply IH |]. unfold put_entry. rewrite map_size_insert.
  destruct (env !! entry_key e); unfold Datatypes.id; lia.
Qed.

(** X8: the keys of the environment handed to [StartProcess] are the ten
    baseline keys together with the keys of the caller's entries: a caller
    can add variables and replace the value of a baseline variable, and can
    never remove one. *)
Theorem X8_environment_keys (pControl : ProcessControl)
    (xctestConfigPath bundleID sessionIdentifier testBundlePath : string)
    (wdaargs wdaenv : list string) (b : string) (env : gmap string value)
    (args : list value) (opts : gmap string value) :
  (b, env, args, opts)
    ∈ start_calls (trace (startTestRunner12 pControl xctestConfigPath bundleID
                            sessionIdentifier testBundlePath wdaargs wdaenv)) ->
  dom env = baseline_keys ∪ list_to_set (entry_key <$> wdaenv)
  /\ (10 <= size env <= 10 + length wdaenv)%nat.
Proof.
  intros Hin. unfold start_calls in Hin.
  apply list_elem_of_omap in Hin as (ev & Hev & Hsome).
  destruct ev; try discriminate Hsome. injection Hsome as -> -> -> ->.
  apply startTestRunner12_call in Hev as (_ & _ & -> & _ & _).
  assert (Hdom : dom (fold_left put_entry wdaenv
                        (baseline_env testBundlePath xctestConfigPath sessionIdentifier))
                 = baseline_keys ∪ list_to_set (entry_key <$> wdaenv))
    by (rewrite fold_put_entry_dom, baseline_env_dom; reflexivity).
  split; [exact Hdom |].
  rewrite <- size_dom, Hdom.
  assert (Hbase : size baseline_keys = 10%nat) by (vm_compute; reflexivity).
  split.
  - rewrite <- Hbase. apply subseteq_size, union_subseteq_l.
  - rewrite <- Hdom, size_dom.
    etransitivity; [apply fold_put_entry_size |].
    rewrite <- size_dom, baseline_env_dom, Hbase. reflexivity.
Qed.

Lemma X8_environment_keys_witness :
  dom (fold_left put_entry ["WDA_PORT=8100"; "NSUnbufferedIO=NO"]
         (baseline_env "/app/PlugIns/Runner.xctest" "/tmp/Runner.xctestconfiguration"
            "3F2504E0"))
  = baseline_keys ∪ list_to_set (entry_key <$> ["WDA_PORT=8100"; "NSUnbufferedIO=NO"]).
Proof.
  apply (X8_environment_keys pc_ok "/tmp/Runner.xctestconfiguration" "com.app.runner"
           "3F2504E0" "/app/PlugIns/Runner.xctest" []
           ["WDA_PORT=8100"; "NSUnbufferedIO=NO"] "com.app.runner" _
           (runner_args []) runner_opts).
  apply list_elem_of_In.
  cbn -[baseline_env runner_args runner_opts put_entry]. left. reflexivity.
Defined.

(** ** Reading an environment entry *)

(** X9: an entry "k=v", where neither [k] nor [v] contains "=", is read as
    key [k] and value [v]; an entry "k=v=rest" is read as key [k] and value
    [v] too, so a value is cut at its first "="; either way the entry puts
    [v] under [k] in the environment. *)
Theorem X9_entries_are_cut_at_the_equals_signs (k v : string) :
  strings.Contains k "=" = false ->
  strings.Contains v "=" = false ->
  (has_eq (k +:+ "=" +:+ v)
   /\ entry_key (k +:+ "=" +:+ v) = k
   /\ entry_value (k +:+ "=" +:+ v) = v)
  /\ forall rest env,
      has_eq (k +:+ "=" +:+ v +:+ "=" +:+ rest)
      /\ entry_key (k +:+ "=" +:+ v +:+ "=" +:+ rest) = k
      /\ entry_value (k +:+ "=" +:+ v +:+ "=" +:+ rest) = v
      /\ put_entry env (k +:+ "=" +:+ v +:+ "=" +:+ rest) !! k = Some (VString v)
      /\ put_entry env (k +:+ "=" +:+ v +:+ "=" +:+ rest)
         = put_entry env (k +:+ "=" +:+ v).
Proof.
  intros Hk Hv.
  assert (H1 : entry_key (k +:+ "=" +:+ v) = k
               /\ entry_value (k +:+ "=" +:+ v) = v).
  { unfold entry_key, entry_value. rewrite (Split_eq_prefix k v Hk), (Split_no_eq v Hv).
    split; reflexivity. }
  assert (H2 : forall rest,
             entry_key (k +:+ "=" +:+ v +:+ "=" +:+ rest) = k
             /\ entry_value (k +:+ "=" +:+ v +:+ "=" +:+ rest) = v).
  { intros rest. unfold entry_key, entry_value.
    rewrite (Split_eq_prefix k _ Hk), (Split_eq_prefix v rest Hv). split; reflexivity. }
  split.
  - split; [apply Contains_eq_prefix | exact H1].
  - intros rest env. destruct (H2 rest) as [Hkey Hvalue], H1 as [Hkey1 Hvalue1].
    split; [apply Contains_eq_prefix |]. split; [exact Hkey |]. split; [exact Hvalue |].
    unfold put_entry. rewrite Hkey, Hvalue, Hkey1, Hvalue1.
    split; [apply lookup_insert_eq | reflexivity].
Qed.

Lemma X9_entries_are_cut_at_the_equals_signs_witness :
  entry_key "TOKEN=abc=def" = "TOKEN" /\ entry_value "TOKEN=abc=def" = "abc".
Proof.
  destruct (X9_entries_are_cut_at_the_equals_signs "TOKEN" "abc" eq_refl eq_refl)
    as [_ H].
  destruct (H "def" ∅) as (_ & Hkey & Hvalue & _). split; assumption.
Defined.

(** ** The condition routes *)

Section ConditionRequests.

Import api.

Lemma enabled_message_nonempty (a b : string) :
  "Enabled condition for ProfileType=" +:+ a +:+ " and Profile=" +:+ b <> "".
Proof. discriminate. Qed.

Lemma insert_fresh_changes {V} (m : gmap string V) (k : string) (v : V) :
  m !! k = None -> <[k := v]> m <> m.
Proof. intros Hnone Heq. rewrite <- Heq, lookup_insert_eq in Hnone. discriminate. Qed.

Ltac enable_cases ins c st :=
  unfold EnableDeviceCondition;
  destruct (deviceConditionsMap st !! SerialNumber (device c)) as [cond0|] eqn:Hlook;
  [| destruct (String.eqb_spec (Query c "profileTypeID") "") as [Htype|Htype];
     [| destruct (String.eqb_spec (Query c "profileID") "") as [Hprofile|Hprofile];
        [| destruct (NewDeviceStateControl ins (device c)) as [err0|] eqn:Hnew;
           [| destruct (List ins {| addr := constructed st |})
                as [profileTypes [err1|]] eqn:Hlist;
              [| destruct (VerifyProfileAndType ins profileTypes
                             (Query c "profileTypeID") (Query c "profileID"))
                   as [[profileType profile] [err2|]] eqn:Hverify;
                 [| destruct (Enable ins {| addr := constructed st |} profileType profile)
                      as [err3|] eqn:Henable]]]]]];
  cbn [fst snd deviceConditionsMap calls constructed record_call failure message
       resp_Message resp_Error].

Ltac settle :=
  unfold StatusOK, StatusUnprocessableEntity, StatusInternalServerError in *;
  repeat match goal with
    | |- _ /\ _ => split
    | |- _ <-> _ => split
    | |- _ <> _ => intro
    | |- _ -> _ => intro
    | H : ?x <> ?x |- _ => contradiction H; reflexivity
    | H : _ /\ _ |- _ => destruct H
    | H : _ \/ _ |- _ => destruct H
    | H : Some _ = None |- _ => discriminate H
    | H : None = Some _ |- _ => discriminate H
    | H : _ +:+ _ = "" |- _ => exfalso; revert H; apply enabled_message_nonempty
    | H : <[_ := _]> ?m = ?m |- _ =>
        exfalso; revert H; apply insert_fresh_changes; assumption
    | |- exists _, _ => eexists
    | |- ?x = ?x => reflexivity
    end;
  try discriminate; try contradiction; try congruence; auto.

(** X10: a request to enable a condition changes the table exactly when it
    answers with a message, and then the answer is 200 and the device had no
    condition before; it turns to instruments only when the device has no
    condition recorded and both query parameters are given; and it answers
    422 exactly when no condition is recorded and a parameter is missing. *)
Theorem X10_enable_changes_the_table_only_on_success
    (ins : Instruments) (c : Context) (st : state) :
  let st' := fst (EnableDeviceCondition ins c st) in
  let code := fst (snd (EnableDeviceCondition ins c st)) in
  let resp := snd (snd (EnableDeviceCondition ins c st)) in
  let udid := SerialNumber (device c) in
  (deviceConditionsMap st' <> deviceConditionsMap st <-> resp_Message resp <> "")
  /\ (resp_Message resp <> "" ->
      code = StatusOK /\ resp_Error resp = ""
      /\ deviceConditionsMap st !! udid = None
      /\ constructed st' = S (constructed st)
      /\ exists cond,
          deviceConditionsMap st' = <[udid := cond]> (deviceConditionsMap st)
          /\ StateControl cond = {| addr := constructed st |})
  /\ (calls st' <> calls st ->
      deviceConditionsMap st !! udid = None
      /\ Query c "profileTypeID" <> "" /\ Query c "profileID" <> "")
  /\ (code = StatusUnprocessableEntity <->
      deviceConditionsMap st !! udid = None
      /\ (Query c "profileTypeID" = "" \/ Query c "profileID" = "")).
Proof.
  cbv zeta. enable_cases ins c st; settle.
Qed.

(** X11: when a request to enable a condition succeeds and the next request
    for that device disables it without error, the table is again what it
    was before the two requests, the instance constructed by the first is
    the one asked to disable, and the second request answers 200. *)
Theorem X11_enable_then_disable_restores_the_table
    (ins ins' : Instruments) (c c' : Context) (st : state) :
  SerialNumber (device c') = SerialNumber (device c) ->
  resp_Message (snd (snd (EnableDeviceCondition ins c st))) <> "" ->
  (forall profileType, Disable ins' {| addr := constructed st |} profileType = None) ->
  let st1 := fst (EnableDeviceCondition ins c st) in
  let st2 := fst (DisableDeviceCondition ins' c' st1) in
  deviceConditionsMap st2 = deviceConditionsMap st
  /\ snd (DisableDeviceCondition ins' c' st1)
     = (StatusOK, message "Device condition disabled")
  /\ constructed st2 = S (constructed st)
  /\ exists cond,
      StateControl cond = {| addr := constructed st |}
      /\ calls st2
         = calls st ++ enabling_calls (device c) cond
             ++ [CallDisable {| addr := constructed st |} (ProfileType_of cond) None].
Proof.
  intros Hsame Hmsg Hdisable. cbv zeta. revert Hmsg.
  enable_cases ins c st; intros Hmsg; try now contradiction Hmsg.
  unfold DisableDeviceCondition. cbn [deviceConditionsMap]. rewrite Hsame.
  rewrite lookup_insert_eq. cbn [StateControl ProfileType_of]. rewrite Hdisable.
  cbn [fst snd deviceConditionsMap calls constructed record_call].
  split; [apply delete_insert_id; exact Hlook |].
  split; [reflexivity |]. split; [reflexivity |].
  exists {| ProfileType_of := profileType; Profile_of := profile;
            StateControl := {| addr := constructed st |} |}.
  split; [reflexivity |]. unfold enabling_calls. cbn [StateControl ProfileType_of Profile_of].
  rewrite <- !app_assoc. reflexivity.
Qed.

Lemma X11_enable_then_disable_restores_the_table_witness :
  deviceConditionsMap
    (fst (DisableDeviceCondition sample_instruments (sample_request "udid-1")
            (fst (EnableDeviceCondition sample_instruments (sample_request "udid-1")
                    init))))
  = deviceConditionsMap init.
Proof.
  refine (proj1 (X11_enable_then_disable_restores_the_table sample_instruments
                   sample_instruments (sample_request "udid-1")
                   (sample_request "udid-1") init eq_refl _ (fun _ => eq_refl))).
  vm_compute. discriminate.
Defined.

Lemma handle_other_device (st : state) (r : request) (udid : string) :
  SerialNumber (request_device r) <> udid ->
  deviceConditionsMap (handle st r) !! udid = deviceConditionsMap st !! udid.
Proof.
  intros Hne. destruct r as [ins c | ins c]; cbn [handle request_device] in *.
  - destruct (EnableDeviceCondition_effect ins c st)
      as [[Hmap _] | (cond & _ & Hmap & _)]; rewrite Hmap; [reflexivity |].
    now apply lookup_insert_ne.
  - pose proof (DisableDeviceCondition_effect ins c st) as Heff. cbv zeta in Heff.
    destruct (deviceConditionsMap st !! SerialNumber (device c)) as [cond|];
      [| now rewrite Heff].
    destruct Heff as [_ Hmap]. rewrite Hmap.
    destruct (Disable ins (StateControl cond) (ProfileType_of cond)); [reflexivity |].
    now apply lookup_delete_ne.
Qed.

(** X12: requests about other devices leave a device's entry as it is:
    after any sequence of requests to the two routes, none of which is about
    [udid], the table holds for [udid] what it held before. *)
Theorem X12_requests_leave_other_devices_alone
    (requests : list request) (st : state) (udid : string) :
  (forall r, r ∈ requests -> SerialNumber (request_device r) <> udid) ->
  deviceConditionsMap (fold_left handle requests st) !! udid
  = deviceConditionsMap st !! udid.
Proof.
  revert st; induction requests as [|r rs IH]; intros st Hother; [reflexivity |].
  cbn [fold_left]. rewrite IH.
  - apply handle_other_device, Hother. left.
  - intros r' Hin. apply Hother. now right.
Qed.

Lemma X12_requests_leave_other_devices_alone_witness :
  deviceConditionsMap
    (fold_left handle
       [PutEnableCondition sample_instruments (sample_request "udid-1");
        PostDisableCondition sample_instruments (sample_request "udid-3")] init)
    !! "udid-2"
  = deviceConditionsMap init !! "udid-2".
Proof.
  apply X12_requests_leave_other_devices_alone.
  intros r Hin. apply list_elem_of_In in Hin.
  destruct Hin as [<- | [<- | []]]; discriminate.
Defined.

(** X13: a request to disable that instruments refuses answers 500 and keeps
    the entry, so the next request to disable for that device asks the same
    instance again, with the same profile type; a request that instruments
    accepts removes the entry, so the next one makes no call and answers 200
    with "Device has no active condition". *)
Theorem X13_refused_disable_keeps_the_entry
    (ins ins' : Instruments) (c c' : Context) (st : state) (cond : deviceCondition) :
  SerialNumber (device c') = SerialNumber (device c) ->
  deviceConditionsMap st !! SerialNumber (device c) = Some cond ->
  let st1 := fst (DisableDeviceCondition ins c st) in
  let st2 := fst (DisableDeviceCondition ins' c' st1) in
  match Disable ins (StateControl cond) (ProfileType_of cond) with
  | Some err =>
      snd (DisableDeviceCondition ins c st)
      = (StatusInternalServerError, failure (Error err))
      /\ deviceConditionsMap st1 = deviceConditionsMap st
      /\ calls st2
         = calls st
             ++ [CallDisable (StateControl cond) (ProfileType_of cond) (Some err);
                 CallDisable (StateControl cond) (ProfileType_of cond)
                   (Disable ins' (StateControl cond) (ProfileType_of cond))]
  | None =>
      snd (DisableDeviceCondition ins c st)
      = (StatusOK, message "Device condition disabled")
      /\ deviceConditionsMap st1 = delete (SerialNumber (device c)) (deviceConditionsMap st)
      /\ DisableDeviceCondition ins' c' st1
         = (st1, (StatusOK, failure "Device has no active condition"))
      /\ calls st1
         = calls st ++ [CallDisable (StateControl cond) (ProfileType_of cond) None]
  end.
Proof.
  intros Hsame Hlook. cbv zeta.
  assert (Hfirst : DisableDeviceCondition ins c st
                   = match Disable ins (StateControl cond) (ProfileType_of cond) with
                     | Some err =>
                         (record_call (CallDisable (StateControl cond)
                                         (ProfileType_of cond) (Some err)) st,
                          (StatusInternalServerError, failure (Error err)))
                     | None =>
                         ({| deviceConditionsMap :=
                               delete (SerialNumber (device c)) (deviceConditionsMap st);
                             constructed := constructed st;
                             calls := calls st
                                        ++ [CallDisable (StateControl cond)
                                              (ProfileType_of cond) None] |},
                          (StatusOK, message "Device condition disabled"))
                     end).
  { unfold DisableDeviceCondition. rewrite Hlook.
    destruct (Disable ins (StateControl cond) (ProfileType_of cond)); reflexivity. }
  destruct (Disable ins (StateControl cond) (ProfileType_of cond)) as [err|] eqn:Hd;
    rewrite Hfirst; cbn [fst snd deviceConditionsMap calls constructed record_call].
  - split; [reflexivity |]. split; [reflexivity |].
    unfold DisableDeviceCondition. cbn [deviceConditionsMap record_call].
    rewrite Hsame, Hlook.
    destruct (Disable ins' (StateControl cond) (ProfileType_of cond));
      cbn [fst snd deviceConditionsMap calls constructed record_call];
      rewrite <- app_assoc; reflexivity.
  - split; [reflexivity |]. split; [reflexivity |]. split; [| reflexivity].
    unfold DisableDeviceCondition. cbn [deviceConditionsMap]. rewrite Hsame.
    rewrite lookup_delete_eq. reflexivity.
Qed.

Lemma X13_refused_disable_keeps_the_entry_witness :
  DisableDeviceCondition sample_instruments (sample_request "udid-1")
    (fst (DisableDeviceCondition sample_instruments (sample_request "udid-1")
            (serve [PutEnableCondition sample_instruments (sample_request "udid-1")])))
  = (fst (DisableDeviceCondition sample_instruments (sample_request "udid-1")
            (serve [PutEnableCondition sample_instruments (sample_request "udid-1")])),
     (StatusOK, failure "Device has no active condition")).
Proof.
  exact (proj1 (proj2 (proj2
    (X13_refused_disable_keeps_the_entry sample_instruments sample_instruments
       (sample_request "udid-1") (sample_request "udid-1")
       (serve [PutEnableCondition sample_instruments (sample_request "udid-1")])
       {| ProfileType_of := slow_network;
          Profile_of := {| Profile_Identifier := "SlowNetwork100PctLoss" |};
          StateControl := {| addr := 0 |} |}
       eq_refl eq_refl)))).
Defined.

Lemma handle_instances_apart (st : state) (r : request) :
  instances_apart st -> instances_apart (handle st r).
Proof.
  unfold instances_apart. intros [Hfresh Hapart].
  destruct r as [ins c | ins c]; cbn [handle].
  - enable_cases ins c st;
      (split; [intros udid cond Hl | intros u1 u2 c1 c2 H1 H2 Heq]).
    1-14: try (specialize (Hfresh _ _ Hl); lia).
    1-7: try (eapply Hapart; eassumption).
    + destruct (decide (SerialNumber (device c) = udid)) as [<-|Hne].
      * rewrite lookup_insert_eq in Hl. inversion Hl; subst cond. cbn. lia.
      * rewrite lookup_insert_ne in Hl by exact Hne. specialize (Hfresh _ _ Hl). lia.
    + destruct (decide (SerialNumber (device c) = u1)) as [E1|N1],
               (decide (SerialNumber (device c) = u2)) as [E2|N2].
      * congruence.
      * subst u1. rewrite lookup_insert_eq in H1. inversion H1; subst c1.
        rewrite lookup_insert_ne in H2 by exact N2.
        specialize (Hfresh _ _ H2). rewrite <- Heq in Hfresh. cbn in Hfresh. lia.
      * subst u2. rewrite lookup_insert_eq in H2. inversion H2; subst c2.
        rewrite lookup_insert_ne in H1 by exact N1.
        specialize (Hfresh _ _ H1). rewrite Heq in Hfresh. cbn in Hfresh. lia.
      * rewrite lookup_insert_ne in H1 by exact N1.
        rewrite lookup_insert_ne in H2 by exact N2.
        eapply Hapart; eassumption.
  - pose proof (DisableDeviceCondition_effect ins c st) as Heff. cbv zeta in Heff.
    assert (Hcons : constructed (fst (DisableDeviceCondition ins c st)) = constructed st).
    { unfold DisableDeviceCondition.
      destruct (deviceConditionsMap st !! SerialNumber (device c)) as [cond|];
        [| reflexivity].
      destruct (Disable ins (StateControl cond) (ProfileType_of cond)); reflexivity. }
    assert (Hsub : forall udid cond,
               deviceConditionsMap (fst (DisableDeviceCondition ins c st)) !! udid
               = Some cond ->
               deviceConditionsMap st !! udid = Some cond).
    { intros udid cond Hl.
      destruct (deviceConditionsMap st !! SerialNumber (device c)) as [cond0|];
        [| now rewrite Heff in Hl].
      destruct Heff as [_ Hmap]. rewrite Hmap in Hl.
      destruct (Disable ins (StateControl cond0) (ProfileType_of cond0));
        [exact Hl |].
      apply lookup_delete_Some in Hl. tauto. }
    split.
    + intros udid cond Hl. rewrite Hcons. eapply Hfresh, Hsub, Hl.
    + intros u1 u2 c1 c2 H1 H2 Heq.
      eapply Hapart; [eapply Hsub, H1 | eapply Hsub, H2 | exact Heq].
Qed.

Lemma serve_instances_apart (requests : list request) :
  instances_apart (serve requests).
Proof.
  unfold serve.
  assert (H : forall st, instances_apart st ->
                         instances_apart (fold_left handle requests st)).
  { induction requests as [|r rs IH]; intros st Hst; [exact Hst |].
    simpl. apply IH. now apply handle_instances_apart. }
  apply H. split.
  - intros udid cond Hl. cbn in Hl. rewrite lookup_empty in Hl. discriminate.
  - intros u1 u2 c1 c2 Hl. cbn in Hl. rewrite lookup_empty in Hl. discriminate.
Qed.

(** X14: in every state the two handlers can reach from the empty table, two
    devices with a recorded condition are recorded with two different
    instances, and every recorded instance is one of those constructed so
    far. *)
Theorem X14_devices_do_not_share_an_instance
    (requests : list request) (udid1 udid2 : string) (cond1 cond2 : deviceCondition) :
  deviceConditionsMap (serve requests) !! udid1 = Some cond1 ->
  deviceConditionsMap (serve requests) !! udid2 = Some cond2 ->
  (udid1 <> udid2 -> StateControl cond1 <> StateControl cond2)
  /\ (addr (StateControl cond1) < constructed (serve requests))%nat
  /\ addr (StateControl cond1) ∈ constructed_instances (calls (serve requests)).
Proof.
  intros H1 H2. destruct (serve_instances_apart requests) as [Hfresh Hapart].
  split; [| split].
  - intros Hne Heq. apply Hne. eapply Hapart; eassumption.
  - eapply Hfresh, H1.
  - destruct (serve_recorded_by_enabler requests udid1 cond1 H1)
      as (d & before & after & _ & Hcalls).
    rewrite Hcalls. unfold constructed_instances, enabling_calls.
    rewrite !omap_app. cbn [omap list_omap].
    apply elem_of_app. right. apply elem_of_app. left. left.
Qed.

Lemma X14_devices_do_not_share_an_instance_witness :
  {| addr := 0 |} <> {| addr := 1 |}.
Proof.
  refine (proj1 (X14_devices_do_not_share_an_instance
                   [PutEnableCondition sample_instruments (sample_request "udid-1");
                    PutEnableCondition sample_instruments (sample_request "udid-2")]
                   "udid-1" "udid-2"
                   {| ProfileType_of := slow_network;
                      Profile_of := {| Profile_Identifier := "SlowNetwork100PctLoss" |};
                      StateControl := {| addr := 0 |} |}
                   {| ProfileType_of := slow_network;
                      Profile_of := {| Profile_Identifier := "SlowNetwork100PctLoss" |};
                      StateControl := {| addr := 1 |} |}
                   eq_refl eq_refl) _).
  discriminate.
Defined.

Lemma app_split_at {A} (l more before after : list A) (x : A) :
  l ++ more = before ++ x :: after ->
  (exists after', l = before ++ x :: after')
  \/ (exists before', before = l ++ before' /\ more = before' ++ x :: after).
Proof.
  revert before; induction l as [|a l IH]; intros before H.
  - right. exists before. split; [reflexivity | exact H].
  - destruct before as [|b before]; simpl in H; injection H as Hhead Htail.
    + left. exists l. now subst.
    + destruct (IH before Htail) as [[after' ->] | (before' & -> & ->)].
      * left. exists after'. now subst.
      * right. exists before'. now subst.
Qed.

Lemma handle_calls_step (st : state) (r : request) :
  recorded_by_enabler st ->
  exists more,
    calls (handle st r) = calls st ++ more
    /\ (disabled_instances more = []
        \/ exists control profileType err,
            more = [CallDisable control profileType err]
            /\ (control, profileType) ∈ enabled_instances (calls st)).
Proof.
  intros Inv. destruct r as [ins c | ins c]; cbn [handle].
  - enable_cases ins c st.
    1-4: exists []; rewrite app_nil_r; split; [reflexivity | left; reflexivity].
    all: eexists; rewrite <- ?app_assoc; split; [reflexivity | left; reflexivity].
  - pose proof (DisableDeviceCondition_effect ins c st) as Heff. cbv zeta in Heff.
    destruct (deviceConditionsMap st !! SerialNumber (device c)) as [cond|] eqn:Hlook.
    + destruct Heff as [Hcalls _]. eexists. split; [exact Hcalls |].
      right. do 3 eexists. split; [reflexivity |].
      destruct (Inv _ _ Hlook) as (d & before & after & _ & Hc).
      rewrite Hc. unfold enabled_instances, enabling_calls.
      rewrite !omap_app. cbn [omap list_omap].
      apply elem_of_app. right. apply elem_of_app. left. left.
    + rewrite Heff. exists []. rewrite app_nil_r. split; [reflexivity | left; reflexivity].
Qed.

Lemma handle_disable_follows_enable (st : state) (r : request) :
  recorded_by_enabler st ->
  (forall before control profileType err after,
      calls st = before ++ CallDisable control profileType err :: after ->
      (control, profileType) ∈ enabled_instances before) ->
  forall before control profileType err after,
    calls (handle st r) = before ++ CallDisable control profileType err :: after ->
    (control, profileType) ∈ enabled_instances before.
Proof.
  intros Inv Hst before control profileType err after Hcalls.
  destruct (handle_calls_step st r Inv) as (more & Hmore & Hkind).
  rewrite Hmore in Hcalls. apply app_split_at in Hcalls
    as [[after' Hold] | (before' & -> & Hnew)].
  - eapply Hst, Hold.
  - destruct Hkind as [Hnone | (control' & profileType' & err' & -> & Hin)].
    + rewrite Hnew in Hnone. unfold disabled_instances in Hnone.
      rewrite omap_app in Hnone. cbn [omap list_omap] in Hnone.
      apply app_eq_nil in Hnone as [_ Hnone]. discriminate.
    + destruct before' as [|b before']; simpl in Hnew.
      * injection Hnew as Hc Hp _ _. subst. now rewrite app_nil_r.
      * injection Hnew as _ Hnil. destruct before'; discriminate.
Qed.

(** X15: in the calls made while any sequence of requests to the two routes
    is served, every call of [Disable] comes after a call of [Enable] on the
    same instance, with the same profile type, that returned without
    error. *)
Theorem X15_disable_is_called_only_after_a_successful_enable
    (requests : list request) (before after : list call)
    (control : DeviceStateControl) (profileType : ProfileType) (err : option error) :
  calls (serve requests) = before ++ CallDisable control profileType err :: after ->
  (control, profileType) ∈ enabled_instances before.
Proof.
  unfold serve.
  assert (H : forall st,
             recorded_by_enabler st ->
             (forall before control profileType err after,
                 calls st = before ++ CallDisable control profileType err :: after ->
                 (control, profileType) ∈ enabled_instances before) ->
             forall before control profileType err after,
               calls (fold_left handle requests st)
               = before ++ CallDisable control profileType err :: after ->
               (control, profileType) ∈ enabled_instances before).
  { induction requests as [|r rs IH]; intros st Inv Hst; [exact Hst |].
    simpl. apply IH.
    - now apply handle_recorded_by_enabler.
    - now apply handle_disable_follows_enable. }
  apply H.
  - intros udid cond Hl. cbn in Hl. rewrite lookup_empty in Hl. discriminate.
  - intros b k p e a Hnil. cbn in Hnil. destruct b; discriminate.
Qed.

Lemma X15_disable_is_called_only_after_a_successful_enable_witness :
  ({| addr := 0 |}, slow_network)
  ∈ enabled_instances
      [CallNew {| SerialNumber := "udid-1" |} {| addr := 0 |};
       CallList {| addr := 0 |};
       CallEnable {| addr := 0 |} slow_network
         {| Profile_Identifier := "SlowNetwork100PctLoss" |} None].
Proof.
  apply (X15_disable_is_called_only_after_a_successful_enable
           [PutEnableCondition sample_instruments (sample_request "udid-1");
            PostDisableCondition sample_instruments (sample_request "udid-1")]
           _ [] _ _ None).
  reflexivity.
Defined.

End ConditionRequests.

(** ** The other device routes *)

Ltac settle_route :=
  unfold api.StatusOK, api.StatusUnprocessableEntity, api.StatusInternalServerError,
    routes.StatusNotFound in *;
  cbn [routes.device_calls routes.responses omap list_omap app] in *;
  repeat match goal with
    | |- _ /\ _ => split
    | |- _ <-> _ => split
    | |- _ <> _ => intro
    | |- ~ _ => intro
    | |- _ -> _ => intro
    | H : ?x <> ?x |- _ => contradiction H; reflexivity
    | H : _ /\ _ |- _ => destruct H
    | H : _ \/ _ |- _ => destruct H
    | H : exists _, _ |- _ => destruct H
    | H : Some _ = None |- _ => discriminate H
    | H : None = Some _ |- _ => discriminate H
    | H : [] = _ :: _ |- _ => discriminate H
    | H : [_] = [_] |- _ => injection H as H; subst
    | H : _ ∈ [] |- _ => apply elem_of_nil in H; contradiction
    | H : _ ∈ _ :: _ |- _ => apply elem_of_cons in H
    | |- ?x = ?x => reflexivity
    end;
  try discriminate; try contradiction; try congruence; try reflexivity.

Section RouteProperties.

Context {ProfileInfo : Type}.

Implicit Types (s : routes.Services ProfileInfo) (c : api.Context) (r : routes.Request).

(** X16: [PairDevice] writes exactly one response, as the last thing it
    does, and attempts at most one pairing: [ios.Pair], and nothing else,
    exactly when [supervised] is "false"; [ios.PairSupervised] exactly when
    [supervised] is any other non-empty value, the form holds a file and the
    password header is not empty, and then with the bytes of that file and
    that password; no call otherwise. It answers 200, with "Device paired",
    exactly when the pairing it attempted returned no error, 422 exactly
    when [supervised] is missing, or the supervised path found the file but
    no password, and 500 in every other case; a missing file is reported
    before a missing password. *)
Theorem X16_pairing_is_attempted_at_most_once s r :
  let tr := routes.PairDevice s r in
  let device := api.device (routes.ctx r) in
  let supervised := api.Query (routes.ctx r) "supervised" in
  let password := routes.Header_Get r "Supervision-Password" in
  exists code obj,
    tr = routes.device_calls tr ++ [routes.JSON code obj]
    /\ routes.device_calls tr
       = (if decide (supervised = "false") then [routes.CallPair device]
          else match routes.FormFile r "p12file" with
               | routes.File p12 =>
                   if decide (supervised <> "" /\ password <> "")
                   then [routes.CallPairSupervised device p12 password]
                   else []
               | routes.NoFile _ => []
               end)
    /\ (code = api.StatusOK <->
        exists call, routes.device_calls tr = [call] /\ routes.answer s call = None)
    /\ (code = api.StatusOK ->
        obj = routes.Generic (api.message "Device paired"))
    /\ (code = api.StatusUnprocessableEntity <->
        supervised = ""
        \/ (supervised <> "false" /\ password = ""
            /\ exists p12, routes.FormFile r "p12file" = routes.File p12))
    /\ (code = api.StatusInternalServerError <->
        code <> api.StatusOK /\ code <> api.StatusUnprocessableEntity).
Proof.
  cbv zeta. unfold routes.PairDevice.
  destruct (String.eqb_spec (api.Query (routes.ctx r) "supervised") "") as [Hs|Hs].
  { do 2 eexists. split; [reflexivity |].
    rewrite decide_False by (rewrite Hs; discriminate).
    split; [destruct (routes.FormFile r "p12file");
            [| rewrite decide_False by tauto]; reflexivity |].
    settle_route. left. exact Hs. }
  destruct (String.eqb_spec (api.Query (routes.ctx r) "supervised") "false") as [Hf|Hf].
  { rewrite decide_True by exact Hf.
    destruct (routes.ios_Pair s (api.device (routes.ctx r))) as [err|] eqn:Hpair;
      do 2 eexists; (split; [reflexivity |]); (split; [reflexivity |]);
      settle_route.
    - cbn [routes.answer] in *. congruence.
    - eexists. split; [reflexivity | exact Hpair]. }
  rewrite decide_False by exact Hf.
  destruct (routes.FormFile r "p12file") as [err|p12] eqn:Hfile.
  { do 2 eexists. split; [reflexivity |]. split; [reflexivity |]. settle_route. }
  destruct (String.eqb_spec (routes.Header_Get r "Supervision-Password") "") as [Hp|Hp].
  { rewrite decide_False by tauto.
    do 2 eexists. split; [reflexivity |]. split; [reflexivity |]. settle_route.
    right. split; [exact Hf |]. split; [exact Hp |]. eexists; reflexivity. }
  rewrite decide_True by tauto.
  destruct (routes.ios_PairSupervised s (api.device (routes.ctx r)) p12
              (routes.Header_Get r "Supervision-Password")) as [err|] eqn:Hpair;
    do 2 eexists; (split; [reflexivity |]); (split; [reflexivity |]);
    settle_route.
  - cbn [routes.answer] in *. congruence.
  - eexists. split; [reflexivity | exact Hpair].
Qed.

(** X17: [GetProfiles] writes exactly one response. It closes the
    connection exactly when it could open one, once, as the last thing it
    does and after the response is written; it asks for the list exactly
    when the connection is open. It answers 500 when the connection cannot
    be opened, 404 when the list cannot be had, and otherwise 200 with what
    [HandleList] returned. *)
Theorem X17_profile_connection_is_closed_when_opened s c :
  let tr := routes.GetProfiles s c in
  let opened := routes.mcinstall_New s (api.device c) = None in
  exists code obj,
    routes.responses tr = [(code, obj)]
    /\ (routes.CallMcinstallClose ∈ tr <-> opened)
    /\ (routes.CallHandleList ∈ tr <-> opened)
    /\ (opened ->
        exists before,
          tr = before ++ [routes.JSON code obj; routes.CallMcinstallClose]
          /\ routes.CallMcinstallClose ∉ before)
    /\ (code = api.StatusInternalServerError <-> ~ opened)
    /\ (code = routes.StatusNotFound <-> opened /\ snd (routes.HandleList s) <> None)
    /\ (code = api.StatusOK <-> opened /\ snd (routes.HandleList s) = None)
    /\ (code = api.StatusOK -> obj = routes.Profiles (fst (routes.HandleList s))).
Proof.
  cbv zeta. unfold routes.GetProfiles.
  destruct (routes.mcinstall_New s (api.device c)) as [err|] eqn:Hnew.
  { do 2 eexists. split; [reflexivity |]. settle_route. }
  destruct (routes.HandleList s) as [profileInfo [err|]] eqn:Hlist;
    do 2 eexists; (split; [reflexivity |]); cbn [app fst snd].
  - split; [split; [reflexivity | intros _; do 3 right; left] |].
    split; [split; [reflexivity | intros _; right; left] |].
    split.
    { intros _. eexists [_; _]. split; [reflexivity |]. settle_route. }
    settle_route.
  - split; [split; [reflexivity | intros _; do 3 right; left] |].
    split; [split; [reflexivity | intros _; right; left] |].
    split.
    { intros _. eexists [_; _]. split; [reflexivity |]. settle_route. }
    settle_route.
Qed.

(** X18: [SetLocation] writes exactly one response, as the last thing it
    does, and calls [simlocation.SetLocation] at most once: exactly when both
    coordinates are given, and with the two query values. It answers 200
    exactly when that call returned no error, and a missing latitude is
    reported whatever the longtitude. [ResetLocation] always makes its one
    call and answers 200 exactly when it returned no error. *)
Theorem X18_location_is_set_only_with_both_coordinates s c :
  let tr := routes.SetLocation s c in
  let latitude := api.Query c "latitude" in
  let longtitude := api.Query c "longtitude" in
  (exists code obj,
      tr = routes.device_calls tr ++ [routes.JSON code obj]
      /\ routes.device_calls tr
         = (if decide (latitude <> "" /\ longtitude <> "")
            then [routes.CallSetLocation (api.device c) latitude longtitude]
            else [])
      /\ (code = api.StatusOK <->
          latitude <> "" /\ longtitude <> ""
          /\ routes.simlocation_SetLocation s (api.device c) latitude longtitude = None)
      /\ (code = api.StatusUnprocessableEntity <-> latitude = "" \/ longtitude = "")
      /\ (latitude = "" ->
          obj = routes.Generic (api.failure "latitude query param is missing")))
  /\ exists code obj,
      routes.ResetLocation s c
      = [routes.CallResetLocation (api.device c); routes.JSON code obj]
      /\ (code = api.StatusOK <->
          routes.simlocation_ResetLocation s (api.device c) = None).
Proof.
  cbv zeta. split.
  - unfold routes.SetLocation.
    destruct (String.eqb_spec (api.Query c "latitude") "") as [Hlat|Hlat].
    { do 2 eexists. split; [reflexivity |].
      rewrite decide_False by tauto. settle_route. left. exact Hlat. }
    destruct (String.eqb_spec (api.Query c "longtitude") "") as [Hlon|Hlon].
    { do 2 eexists. split; [reflexivity |].
      rewrite decide_False by tauto. settle_route. right. exact Hlon. }
    destruct (routes.simlocation_SetLocation s (api.device c) (api.Query c "latitude")
                (api.Query c "longtitude")) as [err|] eqn:Hset;
      do 2 eexists; (split; [reflexivity |]);
      rewrite decide_True by tauto; settle_route.
  - unfold routes.ResetLocation.
    destruct (routes.simlocation_ResetLocation s (api.device c)) as [err|];
      do 2 eexists; (split; [reflexivity |]); settle_route.
Qed.

End RouteProperties.

Lemma GetSupportedConditions_effect {ProfileInfo : Type}
    (ins : api.Instruments) (c : api.Context) (st : api.state) :
  let st' := fst (routes.GetSupportedConditions (ProfileInfo := ProfileInfo) ins c st) in
  api.deviceConditionsMap st' = api.deviceConditionsMap st
  /\ (st' = st
      \/ (api.constructed st' = S (api.constructed st)
          /\ api.calls st'
             = api.calls st
                 ++ [api.CallNew (api.device c) {| api.addr := api.constructed st |};
                     api.CallList {| api.addr := api.constructed st |}])).
Proof.
  cbv zeta. unfold routes.GetSupportedConditions.
  destruct (api.NewDeviceStateControl ins (api.device c)); [split; [| left]; reflexivity |].
  destruct (api.List ins _) as [profileTypes [err|]];
    (split; [reflexivity |]); right; (split; [reflexivity |]);
    cbn [fst api.calls api.record_call]; rewrite <- app_assoc; reflexivity.
Qed.

(** X19: [GetSupportedConditions] leaves the table as it is and calls
    neither [Enable] nor [Disable]; the calls it makes are on the instance it
    constructs, which is none of the recorded ones, and the state it leaves
    still has every recorded instance constructed before and no instance
    shared by two devices. *)
Theorem X19_listing_conditions_leaves_the_table_alone {ProfileInfo : Type}
    (ins : api.Instruments) (c : api.Context) (st : api.state) :
  instances_apart st ->
  let st' := fst (routes.GetSupportedConditions (ProfileInfo := ProfileInfo) ins c st) in
  api.deviceConditionsMap st' = api.deviceConditionsMap st
  /\ instances_apart st'
  /\ exists more,
      api.calls st' = api.calls st ++ more
      /\ enabled_instances more = [] /\ disabled_instances more = []
      /\ forall k udid cond,
          k ∈ more ->
          api.deviceConditionsMap st !! udid = Some cond ->
          routes.call_instance k = {| api.addr := api.constructed st |}
          /\ routes.call_instance k <> api.StateControl cond.
Proof.
  intros [Hfresh Hapart]. cbv zeta.
  destruct (GetSupportedConditions_effect (ProfileInfo := ProfileInfo) ins c st)
    as [Hmap [Hsame | [Hcons Hcalls]]].
  - rewrite Hsame. split; [reflexivity |]. split; [split; assumption |].
    exists []. rewrite app_nil_r. repeat (split; [reflexivity |]).
    intros k udid cond Hin. apply elem_of_nil in Hin. contradiction.
  - split; [exact Hmap |]. split.
    + split.
      * intros udid cond Hl. rewrite Hmap in Hl. rewrite Hcons.
        specialize (Hfresh _ _ Hl). lia.
      * intros u1 u2 c1 c2 H1 H2. rewrite Hmap in H1, H2. now apply Hapart.
    + eexists. split; [exact Hcalls |]. repeat (split; [reflexivity |]).
      intros k udid cond Hin Hl. specialize (Hfresh _ _ Hl).
      assert (Hk : routes.call_instance k = {| api.addr := api.constructed st |}).
      { apply elem_of_cons in Hin as [-> | Hin]; [reflexivity |].
        apply list_elem_of_singleton in Hin as ->. reflexivity. }
      split; [exact Hk |]. rewrite Hk. intros Heq. rewrite <- Heq in Hfresh.
      cbn in Hfresh. lia.
Qed.

Lemma X19_listing_conditions_leaves_the_table_alone_witness :
  let st := api.serve [api.PutEnableCondition api.sample_instruments
                         (api.sample_request "udid-1")] in
  let st' := fst (routes.GetSupportedConditions (ProfileInfo := unit)
                    api.sample_instruments (api.sample_request "udid-2") st) in
  api.deviceConditionsMap st' !! "udid-1" = api.deviceConditionsMap st !! "udid-1"
  /\ routes.call_instance (api.CallList {| api.addr := 1 |}) <> {| api.addr := 0 |}.
Proof.
  intros st st'.
  destruct (X19_listing_conditions_leaves_the_table_alone (ProfileInfo := unit)
              api.sample_instruments (api.sample_request "udid-2") st
              (serve_instances_apart _))
    as (Hmap & _ & more & Hcalls & _ & _ & Hk).
  split; [unfold st'; now rewrite Hmap |].
  assert (Hmore : more = [api.CallNew {| SerialNumber := "udid-2" |} {| api.addr := 1 |};
                          api.CallList {| api.addr := 1 |}]).
  { apply (app_inv_head (api.calls st)). rewrite <- Hcalls. reflexivity. }
  refine (proj2 (Hk (api.CallList {| api.addr := 1 |}) "udid-1"
                   {| api.ProfileType_of := api.slow_network;
                      api.Profile_of :=
                        {| api.Profile_Identifier := "SlowNetwork100PctLoss" |};
                      api.StateControl := {| api.addr := 0 |} |} _ _)).
  - rewrite Hmore. right. left.
  - reflexivity.
Defined.
